(** * FirstPersonRTSGame: the control loop of [Docs/main.py]

    A shallow embedding of class [Game] ([__init__], [handle_events],
    [update]) and the properties of its event routing, interaction
    feedback, building placement confirmation and pause handling.

    [main.py] owns three fields of its own ([game_state], [running], [dt])
    and drives four collaborators ([World], [Player], [UI],
    [ResourceManager]) plus pygame's mouse state.  The collaborators live in
    other modules: their methods are taken as parameters acting on a shared
    store, and every call [main.py] makes on them is recorded in a ghost
    trace, so that "the handler calls [interact] once" or "the handler emits
    this message" are statements about the trace. *)

From Stdlib Require Import ZArith QArith Qabs List String Bool Lia.
From Stdlib Require Floats.
Import ListNotations.

Open Scope Z_scope.
Open Scope string_scope.

(** ** pygame constants (key codes as pygame defines them) *)

Definition K_ESCAPE : Z := 27.
Definition K_SPACE : Z := 32.
Definition K_1 : Z := 49.
Definition K_2 : Z := 50.
Definition K_3 : Z := 51.
Definition K_b : Z := 98.
Definition K_e : Z := 101.
Definition K_i : Z := 105.

(** One entry of [pygame.event.get()].  [OTHER] stands for every event type
    the loop has no branch for (KEYUP, MOUSEBUTTONUP, ...). *)
Inductive Event : Type :=
| QUIT
| KEYDOWN (key : Z)
| MOUSEBUTTONDOWN (button : Z)
| MOUSEMOTION (rel : Z * Z)
| OTHER (type : Z).

(** The result of [pygame.key.get_pressed()]. *)
Definition Keys : Type := list bool.

(** ** Python floats

    Positions, distances and the time step are Python floats.  Only the
    operations [main.py] applies to them are named; the properties below
    that compare distances say which laws of [<] they rely on. *)
Class PyFloat (F : Type) : Type := {
  of_int : Z -> F;               (* an int used where a float is *)
  fsub : F -> F -> F;            (* [a - b] *)
  fadd : F -> F -> F;            (* [a + b] *)
  fdiv : F -> F -> F;            (* [a / b] *)
  fsquare : F -> F;              (* [a ** 2] *)
  froot : F -> F;                (* [a ** 0.5] *)
  flt : F -> F -> bool;          (* [a < b] *)
  f_inf : F                      (* [float('inf')] *)
}.

(** ** Objects [main.py] reads *)

Record Resource : Type := mkResource {
  resource_type : string
}.

Record UI : Type := mkUI {
  building_menu_open : bool;
  building_mode : bool;
  ship_inventory_open : bool;
  building_interaction_open : bool;
  building_type_to_place : option string;
  selected_building_type : option string;
  cursor_pos : Z * Z
}.

Section Objects.

Context {F : Type}.

(** Whatever the collaborators keep to themselves (cargo, feedback queue,
    terrain, ...): [main.py] never reads it. *)
Context {Private : Type}.

Record Building : Type := mkBuilding {
  building_x : F;
  building_z : F;
  building_type : string
}.

(** The value under [obj["object"]]; [object_type] is its [.type]. *)
Inductive GameObject : Type :=
| ObjBuilding (b : Building)
| ObjResource (r : Resource).

Definition object_type (o : GameObject) : string :=
  match o with
  | ObjBuilding b => building_type b
  | ObjResource r => resource_type r
  end.

(** An entry of [player.nearby_objects]: [obj["type"]], [obj["object"]]. *)
Record NearbyObject : Type := mkNearby {
  obj_type : string;
  obj_object : GameObject
}.

Record Player : Type := mkPlayer {
  player_x : F;
  player_z : F;
  nearby_objects : list NearbyObject
}.

Record World : Type := mkWorld {
  buildings : list Building
}.

(** Everything the collaborators can reach: they hold references to one
    another ([UI(screen, player, resource_manager)],
    [Player(x, y, z, world)]) and pygame's mouse state is global, so a
    method of any of them is a transformer of the whole store.  None of
    them holds a reference to the [Game] object. *)
Record Store : Type := mkStore {
  world : World;
  player : Player;
  ui : UI;
  mouse_visible : bool;   (* pygame.mouse.set_visible *)
  event_grab : bool;      (* pygame.event.set_grab *)
  private : Private
}.

(** A call [main.py] makes on a collaborator or on pygame. *)
Inductive Call : Type :=
| CSetVisible (b : bool)
| CSetGrab (b : bool)
| CSwitchShip (index : Z)
| CToggleBuildingMenu
| CToggleShipInventory
| CToggleBuildingInteraction (b : Building)
| CAddFeedbackMessage (text feedback_type : string)
| CInteract
| CHandleMouseClick (pos : Z * Z) (button : Z)
| CHandleMouseMovement (rel : Z * Z)
| CClockTick (framerate : Z)
| CMove (dt : F) (keys : Keys)
| CWorldUpdate (dt : F)
| CResourceManagerUpdate (dt : F)
| CUpdateFeedbackMessages (dt : F).

(** The [Game] object: its own fields, the store its collaborators live
    in, and the ghost trace of calls made so far (oldest first). *)
Record Game : Type := mkGame {
  game_state : string;
  running : bool;
  dt : F;
  store : Store;
  calls : list Call
}.

End Objects.

Arguments Building : clear implicits.
Arguments GameObject : clear implicits.
Arguments NearbyObject : clear implicits.
Arguments Player : clear implicits.
Arguments World : clear implicits.
Arguments Store : clear implicits.
Arguments Call : clear implicits.
Arguments Game : clear implicits.

(** ** Methods of the collaborators (defined outside [main.py]) *)
Class Collaborators (F Private : Type) : Type := {
  switch_ship : Z -> Store F Private -> Store F Private;
  toggle_building_menu : Store F Private -> Store F Private;
  toggle_ship_inventory : Store F Private -> Store F Private;
  toggle_building_interaction :
    Building F -> Store F Private -> Store F Private;
  add_feedback_message : string -> string -> Store F Private -> Store F Private;
  interact : Store F Private -> bool * Store F Private;
  handle_mouse_click :
    Z * Z -> Z -> Store F Private -> bool * Store F Private;
  handle_mouse_movement : Z * Z -> Store F Private -> Store F Private;
  move : F -> Keys -> Store F Private -> Store F Private;
  world_update : F -> Store F Private -> Store F Private;
  resource_manager_update : F -> Store F Private -> Store F Private;
  update_feedback_messages : F -> Store F Private -> Store F Private
}.

Section GameLoop.

Context {F : Type} {float_ops : PyFloat F}.
Context {Private : Type} {collaborators : Collaborators F Private}.

#[local] Abbreviation Game := (Game F Private).
#[local] Abbreviation Store := (Store F Private).
#[local] Abbreviation Call := (Call F).
#[local] Abbreviation Building := (Building F).
#[local] Abbreviation NearbyObject := (NearbyObject F).
#[local] Abbreviation Player := (Player F).

(** *** Field updates *)

Definition set_game_state (v : string) (g : Game) : Game :=
  mkGame v (running g) (dt g) (store g) (calls g).

Definition set_running (v : bool) (g : Game) : Game :=
  mkGame (game_state g) v (dt g) (store g) (calls g).

Definition set_dt (v : F) (g : Game) : Game :=
  mkGame (game_state g) (running g) v (store g) (calls g).

Definition set_ui (u : UI) (s : Store) : Store :=
  mkStore (world s) (player s) u (mouse_visible s) (event_grab s) (private s).

Definition set_cursor_pos (p : Z * Z) (u : UI) : UI :=
  mkUI (building_menu_open u) (building_mode u) (ship_inventory_open u)
       (building_interaction_open u) (building_type_to_place u)
       (selected_building_type u) p.

Definition set_selected_building_type (v : option string) (u : UI) : UI :=
  mkUI (building_menu_open u) (building_mode u) (ship_inventory_open u)
       (building_interaction_open u) (building_type_to_place u)
       v (cursor_pos u).

(** Run a collaborator's method on the store and record the call. *)
Definition call (c : Call) (f : Store -> Store) (g : Game) : Game :=
  mkGame (game_state g) (running g) (dt g) (f (store g)) (calls g ++ [c]).

Definition call_ret (c : Call) (f : Store -> bool * Store) (g : Game)
  : bool * Game :=
  let (r, s) := f (store g) in
  (r, mkGame (game_state g) (running g) (dt g) s (calls g ++ [c])).

Definition mouse_set_visible (b : bool) : Game -> Game :=
  call (CSetVisible b)
       (fun s => mkStore (world s) (player s) (ui s) b (event_grab s)
                         (private s)).

Definition event_set_grab (b : bool) : Game -> Game :=
  call (CSetGrab b)
       (fun s => mkStore (world s) (player s) (ui s) (mouse_visible s) b
                         (private s)).

Definition ui_add_feedback_message (text feedback_type : string)
  : Game -> Game :=
  call (CAddFeedbackMessage text feedback_type)
       (add_feedback_message text feedback_type).

(** *** [Game.__init__]

    [s0] is the store as the constructors of the collaborators leave it;
    the last two statements hide and grab the mouse. *)
Definition init (s0 : Store) : Game :=
  event_set_grab true
    (mouse_set_visible false
      (mkGame "playing" true (of_int 0) s0 [])).

(** *** [Game.handle_events]: the K_b branch (lines 81-97)

    [distance] is the value of the expression of lines 87-88 when it has
    one.  [a ** 2] raises OverflowError when the square of a finite float
    is too large for a float; [scan_raises] below says when that happens,
    and [handle_event_checked] is the iteration with the exception. *)

Definition distance (p : Player) (b : Building) : F :=
  froot (fadd (fsquare (fsub (player_x p) (building_x b)))
              (fsquare (fsub (player_z p) (building_z b)))).

(** The [for building in self.world.buildings] loop, as a function of the
    two loop variables [nearest_building] and [min_distance]. *)
Fixpoint scan_buildings (p : Player) (bs : list Building)
         (nearest_building : option Building) (min_distance : F)
  : option Building * F :=
  match bs with
  | [] => (nearest_building, min_distance)
  | building :: rest =>
      let d := distance p building in
      if flt d min_distance && flt d (of_int 50)
      then scan_buildings p rest (Some building) d
      else scan_buildings p rest nearest_building min_distance
  end.

Definition find_nearest_building (s : Store) : option Building :=
  fst (scan_buildings (player s) (buildings (world s)) None f_inf).

(** [if nearest_building:] holds for every building object. *)
Definition key_b (g : Game) : Game :=
  match find_nearest_building (store g) with
  | Some nearest_building =>
      call (CToggleBuildingInteraction nearest_building)
           (toggle_building_interaction nearest_building) g
  | None =>
      ui_add_feedback_message "Kein Gebäude in der Nähe" "warning" g
  end.

(** *** [Game.handle_events]: the K_e branch (lines 100-139) *)

Definition success_feedback (obj : NearbyObject) (g : Game) : Game :=
  if obj_type obj =? "resource" then g
  else if obj_type obj =? "building" then
    let building_type := object_type (obj_object obj) in
    if building_type =? "Markt" then
      ui_add_feedback_message "Ressourcen verkauft!" "success" g
    else if building_type =? "Raffinerie" then
      ui_add_feedback_message "Öl zu Kraftstoff verarbeitet!" "success" g
    else if building_type =? "Ölplattform" then
      ui_add_feedback_message "Öl abgeholt!" "success" g
    else if building_type =? "Kobaltanreicherung" then
      ui_add_feedback_message "Kobalt verarbeitet!" "success" g
    else
      ui_add_feedback_message ("Mit " ++ building_type ++ " interagiert!")
                              "success" g
  else g.

Definition failure_feedback (obj : NearbyObject) (g : Game) : Game :=
  if obj_type obj =? "resource" then
    let resource_type := object_type (obj_object obj) in
    ui_add_feedback_message ("Benötige Gebäude für " ++ resource_type ++ "!")
                            "error" g
  else if obj_type obj =? "building" then
    let building_type := object_type (obj_object obj) in
    if building_type =? "Markt" then
      ui_add_feedback_message "Keine Ressourcen zum Verkaufen!" "warning" g
    else if building_type =? "Raffinerie" then
      ui_add_feedback_message "Benötige Öl im Frachtraum!" "warning" g
    else if building_type =? "Ölplattform" then
      ui_add_feedback_message "Frachtraum voll!" "warning" g
    else if building_type =? "Kobaltanreicherung" then
      ui_add_feedback_message "Benötige Kobalt im Frachtraum!" "warning" g
    else
      ui_add_feedback_message "Interaktion nicht möglich!" "error" g
  else g.

Definition key_e (g : Game) : Game :=
  let (interact_result, g) := call_ret CInteract interact g in
  match nearby_objects (player (store g)) with
  | obj :: _ =>
      if interact_result then success_feedback obj g
      else failure_feedback obj g
  | [] => ui_add_feedback_message "Nichts in der Nähe!" "info" g
  end.

(** *** [Game.handle_events]: KEYDOWN (lines 52-139) *)

Definition key_escape (g : Game) : Game :=
  if game_state g =? "playing" then
    event_set_grab false (mouse_set_visible true (set_game_state "paused" g))
  else
    event_set_grab true (mouse_set_visible false (set_game_state "playing" g)).

Definition handle_keydown (key : Z) (g : Game) : Game :=
  let g := if (key =? K_ESCAPE)%Z then key_escape g else g in
  if game_state g =? "playing" then
    if (key =? K_1)%Z then call (CSwitchShip 0) (switch_ship 0) g
    else if (key =? K_2)%Z then call (CSwitchShip 1) (switch_ship 1) g
    else if (key =? K_3)%Z then call (CSwitchShip 2) (switch_ship 2) g
    else if (key =? K_SPACE)%Z then
      call CToggleBuildingMenu toggle_building_menu g
    else if (key =? K_i)%Z then
      call CToggleShipInventory toggle_ship_inventory g
    else if (key =? K_b)%Z then key_b g
    else if (key =? K_e)%Z then key_e g
    else g
  else g.

(** *** [Game.handle_events]: MOUSEBUTTONDOWN (lines 142-160) *)

Definition is_None {A : Type} (o : option A) : bool :=
  match o with None => true | Some _ => false end.

(** [f"{v}"] of an optional string. *)
Definition format_option (o : option string) : string :=
  match o with Some s => s | None => "None" end.

Definition any_panel (u : UI) : bool :=
  building_menu_open u || building_mode u || ship_inventory_open u
  || building_interaction_open u.

Definition handle_mousebuttondown (mouse_pos : Z * Z) (button : Z) (g : Game)
  : Game :=
  if (game_state g =? "playing") && any_panel (ui (store g)) then
    let (clicked_result, g) :=
      call_ret (CHandleMouseClick mouse_pos button)
               (handle_mouse_click mouse_pos button) g in
    if clicked_result && building_mode (ui (store g)) then
      if negb (building_mode (ui (store g)))
         && is_None (building_type_to_place (ui (store g))) then
        let g :=
          ui_add_feedback_message
            (format_option (selected_building_type (ui (store g)))
             ++ " platziert!") "success" g in
        mkGame (game_state g) (running g) (dt g)
               (set_ui (set_selected_building_type None (ui (store g)))
                       (store g))
               (calls g)
      else if negb clicked_result then
        ui_add_feedback_message "Gebäude kann hier nicht platziert werden"
                                "error" g
      else g
    else g
  else g.

(** *** [Game.handle_events]: MOUSEMOTION (lines 163-164) *)

Definition camera_free (g : Game) : bool :=
  (game_state g =? "playing")
  && negb (building_menu_open (ui (store g))
           || ship_inventory_open (ui (store g))
           || building_interaction_open (ui (store g))).

(** *** [Game.handle_events]: one iteration of the loop, and the loop

    [mouse_pos] is what [pygame.mouse.get_pos()] returns during this call
    of [handle_events]. *)
Definition dispatch (mouse_pos : Z * Z) (event : Event) (g : Game) : Game :=
  match event with
  | QUIT => set_running false g
  | KEYDOWN key => handle_keydown key g
  | MOUSEBUTTONDOWN button => handle_mousebuttondown mouse_pos button g
  | MOUSEMOTION rel =>
      if camera_free g then
        call (CHandleMouseMovement rel) (handle_mouse_movement rel) g
      else g
  | OTHER _ => g
  end.

Definition handle_event (mouse_pos : Z * Z) (event : Event) (g : Game)
  : Game :=
  let g := dispatch mouse_pos event g in
  mkGame (game_state g) (running g) (dt g)
         (set_ui (set_cursor_pos mouse_pos (ui (store g))) (store g))
         (calls g).

Definition handle_events (mouse_pos : Z * Z) (events : list Event)
           (g : Game) : Game :=
  fold_left (fun g event => handle_event mouse_pos event g) events g.

(** *** [Game.update] (lines 169-189)

    [ms] is what [self.clock.tick(60)] returns, [keys] what
    [pygame.key.get_pressed()] returns. *)
Definition update (ms : Z) (keys : Keys) (g : Game) : Game :=
  let g := call (CClockTick 60) (fun s => s) g in
  let g := set_dt (fdiv (of_int ms) (of_int 1000)) g in
  if game_state g =? "playing" then
    let g := call (CMove (dt g) keys) (move (dt g) keys) g in
    let g := call (CWorldUpdate (dt g)) (world_update (dt g)) g in
    let g := call (CResourceManagerUpdate (dt g))
                  (resource_manager_update (dt g)) g in
    call (CUpdateFeedbackMessages (dt g)) (update_feedback_messages (dt g)) g
  else g.

End GameLoop.

(** ** The outcome table of the specification (section 4.3)

    Written from the table, row by row, to be compared with what the K_e
    branch emits.  The texts are the ones the program displays; the
    specification quotes them in English:
    "Nichts in der Nähe!" is "nothing nearby",
    "Benötige Gebäude für <t>!" is "need a building for <t>",
    "Ressourcen verkauft!" / "Keine Ressourcen zum Verkaufen!" are
    "resources sold" / "no resources to sell",
    "Öl zu Kraftstoff verarbeitet!" / "Benötige Öl im Frachtraum!" are
    "oil processed to fuel" / "need oil in cargo",
    "Öl abgeholt!" / "Frachtraum voll!" are "oil collected" / "cargo full",
    "Kobalt verarbeitet!" / "Benötige Kobalt im Frachtraum!" are
    "cobalt processed" / "need cobalt in cargo",
    "Mit <t> interagiert!" / "Interaktion nicht möglich!" are
    "interacted with <t>" / "interaction not possible". *)

Inductive Severity : Type := Info | Success | Warning | Error.

Definition feedback_type_of (s : Severity) : string :=
  match s with
  | Info => "info"
  | Success => "success"
  | Warning => "warning"
  | Error => "error"
  end.

Inductive BuildingKind : Type :=
| Market | Refinery | OilPlatform | CobaltEnrichment | OtherBuilding.

(** The fixed vocabulary of building types, under the names the world
    gives them. *)
Definition building_kind (type : string) : BuildingKind :=
  if type =? "Markt" then Market
  else if type =? "Raffinerie" then Refinery
  else if type =? "Ölplattform" then OilPlatform
  else if type =? "Kobaltanreicherung" then CobaltEnrichment
  else OtherBuilding.

(** The first column of the table: what [nearbyObjects[0]] is. *)
Inductive Nearest : Type :=
| NothingNearby
| NearResource (resource_type : string)
| NearBuilding (building_type : string).

(** [None] is the row that emits nothing (Resource, success). *)
Definition outcome_table (n : Nearest) (success : bool)
  : option (string * Severity) :=
  match n, success with
  | NothingNearby, _ => Some ("Nichts in der Nähe!", Info)
  | NearResource _, true => None
  | NearResource t, false => Some ("Benötige Gebäude für " ++ t ++ "!", Error)
  | NearBuilding t, true =>
      match building_kind t with
      | Market => Some ("Ressourcen verkauft!", Success)
      | Refinery => Some ("Öl zu Kraftstoff verarbeitet!", Success)
      | OilPlatform => Some ("Öl abgeholt!", Success)
      | CobaltEnrichment => Some ("Kobalt verarbeitet!", Success)
      | OtherBuilding => Some ("Mit " ++ t ++ " interagiert!", Success)
      end
  | NearBuilding t, false =>
      match building_kind t with
      | Market => Some ("Keine Ressourcen zum Verkaufen!", Warning)
      | Refinery => Some ("Benötige Öl im Frachtraum!", Warning)
      | OilPlatform => Some ("Frachtraum voll!", Warning)
      | CobaltEnrichment => Some ("Benötige Kobalt im Frachtraum!", Warning)
      | OtherBuilding => Some ("Interaktion nicht möglich!", Error)
      end
  end.

Section Observations.

Context {F : Type} {float_ops : PyFloat F}.
Context {Private : Type}.

(** The table's view of [player.nearby_objects]; [None] when the first
    entry is of a kind the table has no row for. *)
Definition nearest_of (l : list (NearbyObject F)) : option Nearest :=
  match l with
  | [] => Some NothingNearby
  | obj :: _ =>
      if obj_type obj =? "resource"
      then Some (NearResource (object_type (obj_object obj)))
      else if obj_type obj =? "building"
      then Some (NearBuilding (object_type (obj_object obj)))
      else None
  end.

(** The call that emits a row of the table. *)
Definition emission (row : option (string * Severity)) : list (Call F) :=
  match row with
  | Some (text, severity) =>
      [CAddFeedbackMessage text (feedback_type_of severity)]
  | None => []
  end.

Definition is_interact (c : Call F) : bool :=
  match c with CInteract => true | _ => false end.

Definition is_feedback (c : Call F) : bool :=
  match c with CAddFeedbackMessage _ _ => true | _ => false end.


(** The store after [self.ui.cursor_pos = pygame.mouse.get_pos()]. *)
Definition with_cursor (mouse_pos : Z * Z) (s : Store F Private)
  : Store F Private :=
  set_ui (set_cursor_pos mouse_pos (ui s)) s.

(** [a] is a number: not NaN.  Of the floats, exactly the NaNs are
    neither below infinity nor above zero. *)
Definition is_number (a : F) : bool :=
  flt a f_inf || flt (of_int 0) a.

(** The laws of [<] that the nearest-building search relies on.  They
    hold of Python's floats as they are, NaN, the infinities and the two
    zeros included: [<] is irreflexive and transitive, a number lies above
    the lower or below the upper of any two floats in order, and 50 is
    below infinity.  (A comparison with NaN is false, and -0.0 and 0.0 are
    not below each other; no law says that floats neither of which is
    below the other are the same float.) *)
Record float_laws : Prop := {
  flt_irrefl : forall a : F, flt a a = false;
  flt_trans : forall a b c : F,
      flt a b = true -> flt b c = true -> flt a c = true;
  flt_between : forall a b c : F,
      is_number b = true -> flt a c = true ->
      flt a b = true \/ flt b c = true;
  flt_50_inf : flt (of_int 50) (f_inf : F) = true
}.



(** States reached from [g0] by pause-toggle key presses alone. *)
Inductive toggled_from (collaborators : Collaborators F Private)
          (g0 : Game F Private) : Game F Private -> Prop :=
| toggled_start : toggled_from collaborators g0 g0
| toggled_press g mouse_pos :
    toggled_from collaborators g0 g ->
    toggled_from collaborators g0
                 (handle_event mouse_pos (KEYDOWN K_ESCAPE) g).

End Observations.

(** ** [Game.render] and [Game.run] (lines 191-214) *)

Definition is_quit (e : Event) : bool :=
  match e with
  | QUIT => true
  | _ => false
  end.

(** The drawing methods of the collaborators (defined outside [main.py]).
    They are handed the store like every other method. *)
Class Renderer (F Private : Type) : Type := {
  world_render : Store F Private -> Store F Private;
  ui_render : string -> Store F Private -> Store F Private;
  ui_render_menu : Store F Private -> Store F Private
}.

(** What [render] puts on the screen, in order: [screen.fill(BLUE)],
    [world.render(screen, player)], [ui.render(game_state)],
    [ui.render_menu()], [pygame.display.flip()]. *)
Inductive Drawn : Type :=
| DFill
| DWorldRender
| DUIRender (game_state : string)
| DUIRenderMenu
| DFlip.

(** The input of one turn of the main loop: what [pygame.mouse.get_pos()],
    [pygame.event.get()], [clock.tick(60)] and [pygame.key.get_pressed()]
    return during it. *)
Record Frame : Type := mkFrame {
  frame_mouse_pos : Z * Z;
  frame_events : list Event;
  frame_ms : Z;
  frame_keys : Keys
}.

Section Frames.

Context {F : Type} {float_ops : PyFloat F}.
Context {Private : Type} {collaborators : Collaborators F Private}.
Context {renderer : Renderer F Private}.

Definition render (g : Game F Private) : Game F Private * list Drawn :=
  if (game_state g =? "playing") || (game_state g =? "paused") then
    (mkGame (game_state g) (running g) (dt g)
            (ui_render (game_state g) (world_render (store g))) (calls g),
     [DFill; DWorldRender; DUIRender (game_state g); DFlip])
  else if game_state g =? "menu" then
    (mkGame (game_state g) (running g) (dt g)
            (ui_render_menu (store g)) (calls g),
     [DFill; DUIRenderMenu; DFlip])
  else (g, [DFill; DFlip]).

(** One turn of the [while] loop of [run]. *)
Definition turn (f : Frame) (g : Game F Private)
  : Game F Private * list Drawn :=
  render (update (frame_ms f) (frame_keys f)
                 (handle_events (frame_mouse_pos f) (frame_events f) g)).

(** How a run over a recorded input ends: [Exited] when the loop has been
    left ([pygame.quit()], [sys.exit()]), [Waiting] when the recorded input
    is used up with the loop still running.  Both carry the game and what
    each turn has drawn. *)
Inductive Outcome : Type :=
| Exited (g : Game F Private) (screen : list (list Drawn))
| Waiting (g : Game F Private) (screen : list (list Drawn)).

Definition final_game (o : Outcome) : Game F Private :=
  match o with Exited g _ | Waiting g _ => g end.

Definition final_screen (o : Outcome) : list (list Drawn) :=
  match o with Exited _ scr | Waiting _ scr => scr end.


(** [while self.running: handle_events(); update(); render()], on the
    recorded input [frames]. *)
Fixpoint run (frames : list Frame) (g : Game F Private)
         (screen : list (list Drawn)) : Outcome :=
  if running g then
    match frames with
    | [] => Waiting g screen
    | f :: rest =>
        let (g', drawn) := turn f g in
        run rest g' (screen ++ [drawn])
    end
  else Exited g screen.

(** All turns of a recorded input, whatever [running] says. *)
Fixpoint turns (frames : list Frame) (g : Game F Private)
         (screen : list (list Drawn))
  : Game F Private * list (list Drawn) :=
  match frames with
  | [] => (g, screen)
  | f :: rest =>
      let (g', drawn) := turn f g in
      turns rest g' (screen ++ [drawn])
  end.

Definition has_quit (f : Frame) : bool := existsb is_quit (frame_events f).

(** A method that leaves pygame's mouse state alone. *)
Definition keeps_mouse (f : Store F Private -> Store F Private) : Prop :=
  forall s, mouse_visible (f s) = mouse_visible s
            /\ event_grab (f s) = event_grab s.

(** Collaborators none of whose methods shows, hides, grabs or releases
    the mouse. *)
Record mouse_left_alone : Prop := {
  quiet_switch_ship : forall i, keeps_mouse (switch_ship i);
  quiet_toggle_building_menu : keeps_mouse toggle_building_menu;
  quiet_toggle_ship_inventory : keeps_mouse toggle_ship_inventory;
  quiet_toggle_building_interaction :
    forall b, keeps_mouse (toggle_building_interaction b);
  quiet_add_feedback_message :
    forall t ty, keeps_mouse (add_feedback_message t ty);
  quiet_interact : keeps_mouse (fun s => snd (interact s));
  quiet_handle_mouse_click :
    forall pos b, keeps_mouse (fun s => snd (handle_mouse_click pos b s));
  quiet_handle_mouse_movement :
    forall rel, keeps_mouse (handle_mouse_movement rel);
  quiet_move : forall d k, keeps_mouse (move d k);
  quiet_world_update : forall d, keeps_mouse (world_update d);
  quiet_resource_manager_update :
    forall d, keeps_mouse (resource_manager_update d);
  quiet_update_feedback_messages :
    forall d, keeps_mouse (update_feedback_messages d);
  quiet_world_render : keeps_mouse world_render;
  quiet_ui_render : forall m, keeps_mouse (ui_render m);
  quiet_ui_render_menu : keeps_mouse ui_render_menu
}.

Definition mouse_state (s : Store F Private) : bool * bool :=
  (mouse_visible s, event_grab s).

(** The parts of a game that event handling can read: everything but
    [running]. *)
Definition same_but_running (g g' : Game F Private) : Prop :=
  game_state g = game_state g' /\ dt g = dt g'
  /\ store g = store g' /\ calls g = calls g'.

End Frames.

(** ** Where [main.py] itself raises

    The only arithmetic of [main.py] that can raise is the [** 2] of lines
    87-88: Python raises OverflowError when the square of a finite float
    does not fit a float (an infinity or a NaN squares without error, and
    [-], [+], [** 0.5] of a non-negative float and [<] never raise).  The
    loop over the buildings has no [break] and calls nothing, so a press
    of B raises exactly when the square overflows for some building of
    the world, and then nothing has been called or written for the
    event; the exception leaves [handle_events] and [run]. *)

Class PyFloatErrors (F : Type) : Type := {
  square_overflows : F -> bool   (* [a ** 2] raises OverflowError *)
}.

Section Exceptions.

Context {F : Type} {float_ops : PyFloat F} {float_errors : PyFloatErrors F}.
Context {Private : Type} {collaborators : Collaborators F Private}.

Definition distance_raises (p : Player F) (b : Building F) : bool :=
  square_overflows (fsub (player_x p) (building_x b))
  || square_overflows (fsub (player_z p) (building_z b)).

Definition scan_raises (s : Store F Private) : bool :=
  existsb (distance_raises (player s)) (buildings (world s)).

Definition event_raises (event : Event) (g : Game F Private) : bool :=
  match event with
  | KEYDOWN key =>
      (key =? K_b)%Z && (game_state g =? "playing") && scan_raises (store g)
  | _ => false
  end.

(** One iteration of the loop of [handle_events]: [None] when it raises
    OverflowError, the game after it otherwise. *)
Definition handle_event_checked (mouse_pos : Z * Z) (event : Event)
           (g : Game F Private) : option (Game F Private) :=
  if event_raises event g then None
  else Some (handle_event mouse_pos event g).

End Exceptions.

(** ** A concrete world to run the loop in

    Numbers with exact arithmetic and no rounding: the rationals, the
    square roots of the rationals, an infinity and a not-a-number.
    Differences, sums and quotients of rationals, squares, and square
    roots of rationals are exact; [NaN] stands for NaN and for every
    result this world has no exact form for (a sum with a root in it, a
    root of a root or of a negative number, a division by zero). *)
Module Model.

(** [Root q] is the square root of [q]. *)
Inductive Num : Type := Fin (q : Q) | Root (q : Q) | Inf | NaN.

Definition qlt (x y : Q) : bool := negb (Qle_bool y x).

Definition num_sub (a b : Num) : Num :=
  match a, b with
  | Fin x, Fin y => Fin (Qred (x - y))
  | Inf, Fin _ | Inf, Root _ => Inf
  | _, _ => NaN
  end.

Definition num_add (a b : Num) : Num :=
  match a, b with
  | Fin x, Fin y => Fin (Qred (x + y))
  | Inf, Fin _ | Inf, Root _ | Inf, Inf | Fin _, Inf | Root _, Inf => Inf
  | _, _ => NaN
  end.

Definition num_div (a b : Num) : Num :=
  match a, b with
  | Fin x, Fin y => if Qeq_bool y 0 then NaN else Fin (Qred (x / y))
  | Fin _, Inf | Root _, Inf => Fin 0
  | _, _ => NaN
  end.

Definition num_square (a : Num) : Num :=
  match a with
  | Fin x => Fin (Qred (x * x))
  | Root x => if qlt x 0 then NaN else Fin (Qred x)
  | Inf => Inf
  | NaN => NaN
  end.

(** The root of a rational is a rational when numerator and denominator
    of its reduced form are squares, and a [Root] otherwise. *)
Definition num_root (a : Num) : Num :=
  match a with
  | Fin x =>
      if qlt x 0 then NaN
      else
        let r := Qred x in
        let n := Z.sqrt (Qnum r) in
        let d := Pos.sqrt (Qden r) in
        if ((n * n =? Qnum r)%Z && (d * d =? Qden r)%positive)%bool
        then Fin (n # d)
        else Root r
  | Inf => Inf
  | _ => NaN
  end.

(** Numbers are compared through their signed squares [a * |a|], which
    are rationals and grow with [a]. *)
Inductive Key : Type := KFin (q : Q) | KInf.

Definition key (a : Num) : option Key :=
  match a with
  | Fin x => Some (KFin (x * Qabs x))
  | Root x => if qlt x 0 then None else Some (KFin x)
  | Inf => Some KInf
  | NaN => None
  end.

Definition num_lt (a b : Num) : bool :=
  match key a, key b with
  | Some (KFin x), Some (KFin y) => qlt x y
  | Some (KFin _), Some KInf => true
  | _, _ => false
  end.

#[export] Instance num_float : PyFloat Num := {|
  of_int := fun z => Fin (inject_Z z);
  fsub := num_sub;
  fadd := num_add;
  fdiv := num_div;
  fsquare := num_square;
  froot := num_root;
  flt := num_lt;
  f_inf := Inf
|}.

(** The squares that are too large for a float: those that round to
    infinity, from [2^1024 - 2^970] on. *)
Definition largest_square : Q := inject_Z (2 ^ 1024 - 2 ^ 970).

#[export] Instance num_errors : PyFloatErrors Num := {|
  square_overflows := fun a =>
    match a with
    | Fin x => Qle_bool largest_square (x * x)
    | Root x => Qle_bool largest_square x
    | _ => false
    end
|}.

Record FeedbackMessage : Type := mkMessage {
  text : string;
  severity : string;
  remaining_lifetime : Q
}.

(** What the collaborators keep to themselves in this world. *)
Record Hidden : Type := mkHidden {
  feedback_queue : list FeedbackMessage;
  interaction_building : option (Building Num);
  current_ship : Z;
  interact_outcome : bool;      (* what the next [interact()] returns *)
  occupied : list (Z * Z)       (* where nothing can be placed *)
}.

Definition St : Type := Store Num Hidden.

Definition with_ui (f : UI -> UI) (s : St) : St :=
  mkStore (world s) (player s) (f (ui s)) (mouse_visible s) (event_grab s)
          (private s).

Definition with_private (f : Hidden -> Hidden) (s : St) : St :=
  mkStore (world s) (player s) (ui s) (mouse_visible s) (event_grab s)
          (f (private s)).

(** Modelled from the spec: [UI.toggle_building_menu] and
    [UI.toggle_ship_inventory] are missing; section 4.1 says a
    menu-toggle key flips exactly one flag. *)
Definition model_toggle_building_menu : St -> St :=
  with_ui (fun u =>
    mkUI (negb (building_menu_open u)) (building_mode u)
         (ship_inventory_open u) (building_interaction_open u)
         (building_type_to_place u) (selected_building_type u)
         (cursor_pos u)).

Definition model_toggle_ship_inventory : St -> St :=
  with_ui (fun u =>
    mkUI (building_menu_open u) (building_mode u)
         (negb (ship_inventory_open u)) (building_interaction_open u)
         (building_type_to_place u) (selected_building_type u)
         (cursor_pos u)).

(** Modelled from the spec: [UI.toggle_building_interaction] is missing;
    section 4.1 says the panel opens bound to the building found. *)
Definition model_toggle_building_interaction (b : Building Num) (s : St)
  : St :=
  with_private (fun h =>
    mkHidden (feedback_queue h) (Some b) (current_ship h)
             (interact_outcome h) (occupied h))
    (with_ui (fun u =>
      mkUI (building_menu_open u) (building_mode u)
           (ship_inventory_open u) true
           (building_type_to_place u) (selected_building_type u)
           (cursor_pos u)) s).

(** Modelled from the spec: [UI.add_feedback_message] is missing;
    section 4.5 says a push appends the message with a fixed default
    lifetime (3 seconds). *)
Definition model_add_feedback_message (t ty : string) : St -> St :=
  with_private (fun h =>
    mkHidden (feedback_queue h ++ [mkMessage t ty 3]) (interaction_building h)
             (current_ship h) (interact_outcome h) (occupied h)).

(** Modelled from the spec: [UI.update_feedback_messages] is missing;
    section 4.5 says a tick lowers every lifetime by the time step and
    drops the messages that reach zero, keeping the order of the rest. *)
Definition model_update_feedback_messages (d : Num) : St -> St :=
  with_private (fun h =>
    mkHidden
      (match d with
       | Fin z =>
           filter (fun m => qlt 0 (remaining_lifetime m))
                  (map (fun m => mkMessage (text m) (severity m)
                                           (Qred (remaining_lifetime m - z)))
                       (feedback_queue h))
       | Inf => []
       | _ => feedback_queue h
       end)
      (interaction_building h) (current_ship h) (interact_outcome h)
      (occupied h)).

(** Modelled from the spec: [Player.interact] is missing; section 4.3
    says it returns a success flag decided by the interaction model,
    which is out of scope: here the flag is read from the store. *)
Definition model_interact (s : St) : bool * St :=
  (interact_outcome (private s), s).

(** Modelled from the spec: [UI.handle_mouse_click] is missing; section
    4.4 says a click in placement mode attempts a placement, which on
    success clears the mode flag and the pending type and on failure
    leaves both; the result says whether the click succeeded.  Outside
    placement mode the click is taken by the open panel. *)
Definition model_handle_mouse_click (pos : Z * Z) (button : Z) (s : St)
  : bool * St :=
  if building_mode (ui s) then
    if existsb (fun q => (fst q =? fst pos)%Z && (snd q =? snd pos)%Z)
               (occupied (private s))
    then (false, s)
    else (true,
          with_ui (fun u =>
            mkUI (building_menu_open u) false (ship_inventory_open u)
                 (building_interaction_open u) None
                 (selected_building_type u) (cursor_pos u)) s)
  else (true, s).

(** Modelled from the spec: [Player.switch_ship] is missing; section 4.1
    says the slot keys request a ship by index. *)
Definition model_switch_ship (i : Z) : St -> St :=
  with_private (fun h =>
    mkHidden (feedback_queue h) (interaction_building h) i
             (interact_outcome h) (occupied h)).

(** Movement, camera and simulation are out of scope of the
    specification: they leave this world as it is. *)
#[export] Instance model_collaborators : Collaborators Num Hidden := {|
  switch_ship := model_switch_ship;
  toggle_building_menu := model_toggle_building_menu;
  toggle_ship_inventory := model_toggle_ship_inventory;
  toggle_building_interaction := model_toggle_building_interaction;
  add_feedback_message := model_add_feedback_message;
  interact := model_interact;
  handle_mouse_click := model_handle_mouse_click;
  handle_mouse_movement := fun _ s => s;
  move := fun _ _ s => s;
  world_update := fun _ s => s;
  resource_manager_update := fun _ s => s;
  update_feedback_messages := model_update_feedback_messages
|}.

Definition no_ui : UI := mkUI false false false false None None (0, 0).

Definition hidden0 : Hidden := mkHidden [] None 0 false [].

(** A store with the player at the origin. *)
Definition store_of (bs : list (Building Num))
           (near : list (NearbyObject Num)) (u : UI) (h : Hidden) : St :=
  mkStore (mkWorld bs) (mkPlayer (Fin 0) (Fin 0) near) u true false h.

Definition market : Building Num := mkBuilding (Fin 3) (Fin 4) "Markt".
Definition refinery : Building Num := mkBuilding (Fin 4) (Fin 3) "Raffinerie".
Definition far_platform : Building Num :=
  mkBuilding (Fin 36) (Fin 48) "Ölplattform".

(** Scenario 1: a market within reach, cargo to sell. *)
Definition at_market : Game Num Hidden :=
  init (store_of [market] [mkNearby "building" (ObjBuilding market)] no_ui
                  (mkHidden [] None 0 true [])).

(** Scenario 2: nothing around. *)
Definition open_sea : St := store_of [] [] no_ui hidden0.

Definition in_open_sea : Game Num Hidden := init open_sea.

(** Scenario 3 and a tie: a platform at distance 60, then a market and a
    refinery both at distance 5. *)
Definition in_town : Game Num Hidden :=
  init (store_of [far_platform; market; refinery] [] no_ui hidden0).


(** Scenario 4: placement mode for a refinery; the tile (10, 10) is
    occupied. *)
Definition placing_refinery : Game Num Hidden :=
  mkGame "playing" true (Fin 0)
         (store_of [market] []
                   (mkUI false true false false (Some "Raffinerie")
                         (Some "Raffinerie") (0, 0))
                   (mkHidden [] None 0 false [(10, 10)]))
         [].

(** The building menu opened, then the game paused. *)
Definition paused_with_menu : Game Num Hidden :=
  handle_events (5, 5) [KEYDOWN K_SPACE; KEYDOWN K_ESCAPE] in_open_sea.

(** A "nothing nearby" message on screen, then the game paused. *)
Definition paused_with_message : Game Num Hidden :=
  handle_events (5, 5) [KEYDOWN K_e; KEYDOWN K_ESCAPE] in_open_sea.

(** A player whose [interact()] uses up what was nearby, so that the list
    after the call differs from the list before it; everything else as
    above. *)
Definition consuming_interact (s : St) : bool * St :=
  (false,
   mkStore (world s)
           (mkPlayer (player_x (player s)) (player_z (player s)) [])
           (ui s) (mouse_visible s) (event_grab s) (private s)).

Definition consuming_collaborators : Collaborators Num Hidden := {|
  switch_ship := model_switch_ship;
  toggle_building_menu := model_toggle_building_menu;
  toggle_ship_inventory := model_toggle_ship_inventory;
  toggle_building_interaction := model_toggle_building_interaction;
  add_feedback_message := model_add_feedback_message;
  interact := consuming_interact;
  handle_mouse_click := model_handle_mouse_click;
  handle_mouse_movement := fun _ s => s;
  move := fun _ _ s => s;
  world_update := fun _ s => s;
  resource_manager_update := fun _ s => s;
  update_feedback_messages := model_update_feedback_messages
|}.

(** An oil field within reach. *)
Definition at_oil_field : Game Num Hidden :=
  init (store_of [] [mkNearby "resource" (ObjResource (mkResource "Öl"))]
                 no_ui hidden0).

(** Three presses of the pause key. *)
Definition toggled_thrice : Game Num Hidden :=
  handle_event (3, 3) (KEYDOWN K_ESCAPE)
    (handle_event (2, 2) (KEYDOWN K_ESCAPE)
      (handle_event (1, 1) (KEYDOWN K_ESCAPE) in_open_sea)).

(** Drawing leaves this world as it is. *)
#[export] Instance model_renderer : Renderer Num Hidden := {|
  world_render := fun s => s;
  ui_render := fun _ s => s;
  ui_render_menu := fun s => s
|}.

(** A recorded session: a quiet turn, a turn that pauses, and a turn in
    which the window is closed just before E is pressed; the fourth turn
    is never played. *)
Definition session : list Frame :=
  [mkFrame (1, 1) [] 16 [];
   mkFrame (2, 2) [KEYDOWN K_ESCAPE; MOUSEMOTION (4, 0)] 17 [];
   mkFrame (3, 3) [KEYDOWN K_ESCAPE; QUIT; KEYDOWN K_e] 2000 [];
   mkFrame (4, 4) [KEYDOWN K_SPACE] 16 []].

(** The building menu and the ship inventory both open while a refinery
    is being placed. *)
Definition all_panels_open : Game Num Hidden :=
  mkGame "playing" true (Fin 0)
         (store_of [market] []
                   (mkUI true true true true (Some "Raffinerie")
                         (Some "Raffinerie") (0, 0))
                   hidden0)
         [].

(** A market next door and a platform so far away that the square of
    its distance does not fit a float. *)
Definition at_worlds_end : Game Num Hidden :=
  init (store_of [market;
                  mkBuilding (Fin (inject_Z (10 ^ 200))) (Fin 0) "Ölplattform"]
                 [] no_ui hidden0).

(** Something nearby that is neither a resource nor a building. *)
Definition at_wreck : Game Num Hidden :=
  init (store_of [] [mkNearby "wreck" (ObjResource (mkResource "Holz"))]
                 no_ui hidden0).

End Model.

(** ** The floats of the machine

    Python's floats are IEEE 754 doubles, which are Rocq's primitive
    floats: [<] is [PrimFloat.ltb] and [float('inf')] is
    [PrimFloat.infinity].  This instance is there to check the laws of
    [<] at the program's own float type; the correctly rounded product and
    square root stand for [** 2] and [** 0.5], and squaring raises when a
    float that is not an infinity has an infinite square. *)
Module Double.

Definition double_of_int (z : Z) : PrimFloat.float :=
  match z with
  | Z0 => PrimFloat.zero
  | Zpos _ => PrimFloat.of_uint63 (Uint63Axioms.of_Z z)
  | Zneg p => PrimFloat.opp (PrimFloat.of_uint63 (Uint63Axioms.of_Z (Zpos p)))
  end.

Definition double_float : PyFloat PrimFloat.float := {|
  of_int := double_of_int;
  fsub := PrimFloat.sub;
  fadd := PrimFloat.add;
  fdiv := PrimFloat.div;
  fsquare := fun a => PrimFloat.mul a a;
  froot := PrimFloat.sqrt;
  flt := PrimFloat.ltb;
  f_inf := PrimFloat.infinity
|}.

Definition double_errors : PyFloatErrors PrimFloat.float := {|
  square_overflows := fun a =>
    negb (PrimFloat.is_infinity a)
    && PrimFloat.is_infinity (PrimFloat.mul a a)
|}.

(** Where a float stands in the order of [<]: sign class, then exponent,
    then mantissa; NaN stands nowhere. *)
Definition sf_key (f : SpecFloat.spec_float) : option (Z * Z * Z) :=
  match f with
  | SpecFloat.S754_nan => None
  | SpecFloat.S754_infinity true => Some (-2, 0, 0)%Z
  | SpecFloat.S754_infinity false => Some (2, 0, 0)%Z
  | SpecFloat.S754_zero _ => Some (0, 0, 0)%Z
  | SpecFloat.S754_finite true m e => Some (-1, - e, - Zpos m)%Z
  | SpecFloat.S754_finite false m e => Some (1, e, Zpos m)%Z
  end.

Definition key_lt (k1 k2 : Z * Z * Z) : Prop :=
  let '(a1, b1, c1) := k1 in
  let '(a2, b2, c2) := k2 in
  (a1 < a2 \/ (a1 = a2 /\ (b1 < b2 \/ (b1 = b2 /\ c1 < c2))))%Z.

End Double.

(** ** Properties of the loop, for any collaborators *)

Definition is_pause_toggle (e : Event) : bool :=
  match e with
  | KEYDOWN key => (key =? K_ESCAPE)%Z
  | _ => false
  end.

Ltac case_if :=
  match goal with
  | |- context [if ?b then _ else _] => destruct b eqn:?
  end.

Section Properties.

Context {F : Type} {float_ops : PyFloat F}.
Context {Private : Type} {collaborators : Collaborators F Private}.

Implicit Types (g : Game F Private) (s : Store F Private).

(** *** What the helpers leave alone *)

Lemma call_ret_eq c (f : Store F Private -> bool * Store F Private) g :
  call_ret c f g =
  (fst (f (store g)),
   mkGame (game_state g) (running g) (dt g) (snd (f (store g)))
          (calls g ++ [c])).
Proof. unfold call_ret. destruct (f (store g)); reflexivity. Qed.

Lemma success_feedback_state obj g :
  game_state (success_feedback obj g) = game_state g.
Proof. unfold success_feedback. repeat case_if; reflexivity. Qed.

Lemma failure_feedback_state obj g :
  game_state (failure_feedback obj g) = game_state g.
Proof. unfold failure_feedback. repeat case_if; reflexivity. Qed.

Lemma key_e_state g : game_state (key_e g) = game_state g.
Proof.
  unfold key_e. rewrite call_ret_eq.
  cbv beta iota zeta. cbn [store].
  destruct (nearby_objects _); [reflexivity|].
  case_if; [rewrite success_feedback_state | rewrite failure_feedback_state];
    reflexivity.
Qed.

Lemma key_b_state g : game_state (key_b g) = game_state g.
Proof. unfold key_b. destruct (find_nearest_building _); reflexivity. Qed.

(** A click never reaches either feedback call of the placement block:
    the block is entered only with [building_mode] set, its first test
    asks for [building_mode] cleared, and its second for a false
    [clicked_result] inside a branch that has it true. *)
Lemma handle_mousebuttondown_eq mouse_pos button g :
  handle_mousebuttondown mouse_pos button g =
  if (game_state g =? "playing") && any_panel (ui (store g)) then
    mkGame (game_state g) (running g) (dt g)
           (snd (handle_mouse_click mouse_pos button (store g)))
           (calls g ++ [CHandleMouseClick mouse_pos button])
  else g.
Proof.
  unfold handle_mousebuttondown. case_if; [|reflexivity].
  rewrite call_ret_eq. cbv beta iota zeta. cbn [store].
  destruct (fst (handle_mouse_click mouse_pos button (store g)));
    destruct (building_mode _); reflexivity.
Qed.

Lemma handle_keydown_other key g :
  (key =? K_ESCAPE)%Z = false ->
  game_state (handle_keydown key g) = game_state g.
Proof.
  intros Hk. unfold handle_keydown. rewrite Hk.
  repeat case_if; try reflexivity.
  - apply key_b_state.
  - apply key_e_state.
Qed.

Lemma handle_keydown_escape g :
  handle_keydown K_ESCAPE g = key_escape g.
Proof.
  unfold handle_keydown.
  change (K_ESCAPE =? K_ESCAPE)%Z with true.
  change (K_ESCAPE =? K_1)%Z with false.
  change (K_ESCAPE =? K_2)%Z with false.
  change (K_ESCAPE =? K_3)%Z with false.
  change (K_ESCAPE =? K_SPACE)%Z with false.
  change (K_ESCAPE =? K_i)%Z with false.
  change (K_ESCAPE =? K_b)%Z with false.
  change (K_ESCAPE =? K_e)%Z with false.
  cbv iota zeta. case_if; reflexivity.
Qed.

Lemma key_escape_state g :
  game_state (key_escape g) =
  if game_state g =? "playing" then "paused" else "playing".
Proof. unfold key_escape. case_if; reflexivity. Qed.

(** C6: the mode changes on the pause-toggle key-down and on nothing
    else.  For every state and every event, the mode after
    [handle_events] has processed the event is the flipped mode
    (Playing to Paused, anything else to Playing) when the event is the
    ESC key-down, and the mode before otherwise; [update] leaves the
    mode as it is. *)
Theorem mode_changes_only_on_pause_toggle g mouse_pos e ms keys :
  game_state (handle_event mouse_pos e g) =
    (if is_pause_toggle e
     then (if game_state g =? "playing" then "paused" else "playing")
     else game_state g)
  /\ game_state (update ms keys g) = game_state g.
Proof.
  split.
  - unfold handle_event. cbn [game_state].
    destruct e as [|key|button|rel|t]; cbn [dispatch is_pause_toggle].
    + reflexivity.
    + destruct (key =? K_ESCAPE)%Z eqn:Hk.
      * apply Z.eqb_eq in Hk. subst key.
        rewrite handle_keydown_escape. apply key_escape_state.
      * apply handle_keydown_other; assumption.
    + rewrite handle_mousebuttondown_eq. case_if; reflexivity.
    + case_if; reflexivity.
    + reflexivity.
  - unfold update. cbn [game_state set_dt call].
    case_if; reflexivity.
Qed.

(** C7 (as the router does it): a pointer button-down is forwarded to
    the UI's click handler, and to nothing else, exactly when the mode is
    Playing and one of the four panel flags is set; in every other case
    (no flag set, or a mode other than Playing) the router makes no call
    and only records the cursor position. *)
Theorem click_forwarded_when_playing_and_panel g mouse_pos button :
  calls (handle_event mouse_pos (MOUSEBUTTONDOWN button) g) =
    (calls g ++
     (if (game_state g =? "playing")
         && (building_menu_open (ui (store g))
             || building_mode (ui (store g))
             || ship_inventory_open (ui (store g))
             || building_interaction_open (ui (store g)))
      then [CHandleMouseClick mouse_pos button]
      else []))%list
  /\ store (handle_event mouse_pos (MOUSEBUTTONDOWN button) g) =
    with_cursor mouse_pos
      (if (game_state g =? "playing")
          && (building_menu_open (ui (store g))
              || building_mode (ui (store g))
              || ship_inventory_open (ui (store g))
              || building_interaction_open (ui (store g)))
       then snd (handle_mouse_click mouse_pos button (store g))
       else store g).
Proof.
  unfold handle_event. cbn [dispatch calls store].
  rewrite handle_mousebuttondown_eq. unfold any_panel, with_cursor.
  case_if; cbn [calls store]; split; try reflexivity.
  symmetry; apply app_nil_r.
Qed.

(** C8: a pointer-motion event is forwarded to the player's camera
    handler exactly when the mode is Playing and none of
    BuildingMenuOpen, ShipInventoryOpen, BuildingInteractionOpen is set;
    BuildingMode plays no part, so motion is forwarded when it alone is
    set. *)
Theorem motion_forwarded_iff_camera_free g mouse_pos rel :
  (calls (handle_event mouse_pos (MOUSEMOTION rel) g) =
     (calls g ++
      (if (game_state g =? "playing")
          && negb (building_menu_open (ui (store g)))
          && negb (ship_inventory_open (ui (store g)))
          && negb (building_interaction_open (ui (store g)))
       then [CHandleMouseMovement rel]
       else []))%list)
  /\ (store (handle_event mouse_pos (MOUSEMOTION rel) g) =
     with_cursor mouse_pos
       (if (game_state g =? "playing")
           && negb (building_menu_open (ui (store g)))
           && negb (ship_inventory_open (ui (store g)))
           && negb (building_interaction_open (ui (store g)))
        then handle_mouse_movement rel (store g)
        else store g)).
Proof.
  unfold handle_event. cbn [dispatch]. unfold camera_free, with_cursor.
  destruct (game_state g =? "playing");
    destruct (building_menu_open _), (ship_inventory_open _),
      (building_interaction_open _);
    cbn; split; try reflexivity; symmetry; apply app_nil_r.
Qed.

(** C9: outside Playing a tick only measures time.  When the mode is not
    Playing, [update] sets [dt] from the clock and makes no other call:
    the store of the player, the world, the resource manager and the UI
    (feedback queue and its lifetimes included) is the one before. *)
Theorem update_outside_playing_only_ticks g ms keys :
  game_state g <> "playing" ->
  update ms keys g =
    mkGame (game_state g) (running g) (fdiv (of_int ms) (of_int 1000))
           (store g) (calls g ++ [CClockTick 60]).
Proof.
  intros Hmode. unfold update. cbn [game_state set_dt call].
  destruct (game_state g =? "playing") eqn:E.
  - apply String.eqb_eq in E. contradiction.
  - reflexivity.
Qed.

(** *** The interact key *)

Lemma handle_keydown_interact g :
  game_state g = "playing" -> handle_keydown K_e g = key_e g.
Proof.
  intros Hmode. unfold handle_keydown.
  change (K_e =? K_ESCAPE)%Z with false.
  change (K_e =? K_1)%Z with false.
  change (K_e =? K_2)%Z with false.
  change (K_e =? K_3)%Z with false.
  change (K_e =? K_SPACE)%Z with false.
  change (K_e =? K_i)%Z with false.
  change (K_e =? K_b)%Z with false.
  change (K_e =? K_e)%Z with true.
  cbv iota zeta. rewrite Hmode. reflexivity.
Qed.

Lemma success_feedback_calls obj l n g :
  nearest_of (obj :: l) = Some n ->
  calls (success_feedback obj g) =
    (calls g ++ emission (outcome_table n true))%list.
Proof.
  unfold nearest_of, success_feedback. intros Hn.
  destruct (obj_type obj =? "resource").
  - injection Hn as <-. cbn. symmetry; apply app_nil_r.
  - destruct (obj_type obj =? "building"); [|discriminate].
    injection Hn as <-. unfold outcome_table, building_kind.
    repeat case_if; reflexivity.
Qed.

Lemma failure_feedback_calls obj l n g :
  nearest_of (obj :: l) = Some n ->
  calls (failure_feedback obj g) =
    (calls g ++ emission (outcome_table n false))%list.
Proof.
  unfold nearest_of, failure_feedback. intros Hn.
  destruct (obj_type obj =? "resource").
  - injection Hn as <-. reflexivity.
  - destruct (obj_type obj =? "building"); [|discriminate].
    injection Hn as <-. unfold outcome_table, building_kind.
    repeat case_if; reflexivity.
Qed.

(** What either feedback helper appends is a list of feedback calls. *)
Lemma success_feedback_appends obj g :
  exists fb, calls (success_feedback obj g) = (calls g ++ fb)%list
             /\ forallb is_feedback fb = true.
Proof.
  unfold success_feedback.
  repeat case_if;
    first [ exists []; split; [symmetry; apply app_nil_r | reflexivity]
          | eexists [_]; split; reflexivity ].
Qed.

Lemma failure_feedback_appends obj g :
  exists fb, calls (failure_feedback obj g) = (calls g ++ fb)%list
             /\ forallb is_feedback fb = true.
Proof.
  unfold failure_feedback.
  repeat case_if;
    first [ exists []; split; [symmetry; apply app_nil_r | reflexivity]
          | eexists [_]; split; reflexivity ].
Qed.

Lemma feedback_has_no_interact (fb : list (Call F)) :
  forallb is_feedback fb = true -> filter is_interact fb = [].
Proof.
  induction fb as [|c fb IH]; [reflexivity|].
  cbn [forallb filter]. intros H. apply andb_prop in H as [Hc Hfb].
  destruct c; try discriminate. cbn. auto.
Qed.

(** C1: the feedback of an interact-key press is the row of the outcome
    table.  In Playing, pressing E makes the handler call [interact] and
    then emit exactly what the table of section 4.3 gives for the first
    nearby object (none, a resource, a building and its type) and the
    result of [interact]: one message with the row's text and severity,
    or no message at all in the Resource/success row. *)
Theorem interact_feedback_is_table_row g mouse_pos n :
  game_state g = "playing" ->
  nearest_of (nearby_objects (player (snd (interact (store g))))) = Some n ->
  calls (handle_event mouse_pos (KEYDOWN K_e) g) =
    (calls g ++
     CInteract :: emission (outcome_table n (fst (interact (store g)))))%list.
Proof.
  intros Hmode Hn. unfold handle_event. cbn [calls dispatch].
  rewrite handle_keydown_interact by assumption.
  unfold key_e. rewrite call_ret_eq. cbv beta iota zeta. cbn [store].
  destruct (nearby_objects (player (snd (interact (store g)))))
    as [|obj l] eqn:Hnear.
  - injection Hn as <-. cbn. rewrite <- app_assoc. reflexivity.
  - destruct (fst (interact (store g))).
    + rewrite (success_feedback_calls obj l n) by assumption.
      cbn [calls]. rewrite <- app_assoc. reflexivity.
    + rewrite (failure_feedback_calls obj l n) by assumption.
      cbn [calls]. rewrite <- app_assoc. reflexivity.
Qed.

(** C10: an interact-key press calls [interact] once, and first.  In
    Playing, the calls the handler makes for E are [interact] followed by
    feedback calls only, so [interact] is called exactly once; the
    nearby-objects list the handler then looks at is the one in the store
    [interact] returned; and when that list is empty the handler has still
    called [interact], kept its effects, and emitted
    "Nichts in der Nähe!" (nothing nearby) as Info. *)
Theorem interact_called_once_and_first g mouse_pos :
  game_state g = "playing" ->
  exists feedback : list (Call F),
    calls (handle_event mouse_pos (KEYDOWN K_e) g) =
      (calls g ++ CInteract :: feedback)%list
    /\ forallb is_feedback feedback = true
    /\ List.length (filter is_interact (CInteract :: feedback)) = 1%nat
    /\ (forall n,
         nearest_of (nearby_objects (player (snd (interact (store g)))))
           = Some n ->
         feedback = emission (outcome_table n (fst (interact (store g)))))
    /\ (nearby_objects (player (snd (interact (store g)))) = [] ->
        feedback = [CAddFeedbackMessage "Nichts in der Nähe!" "info"]
        /\ store (handle_event mouse_pos (KEYDOWN K_e) g) =
           with_cursor mouse_pos
             (add_feedback_message "Nichts in der Nähe!" "info"
                                   (snd (interact (store g))))).
Proof.
  intros Hmode. unfold handle_event. cbn [calls store dispatch].
  rewrite handle_keydown_interact by assumption.
  unfold key_e. rewrite call_ret_eq. cbv beta iota zeta. cbn [store].
  set (g1 := mkGame _ _ _ _ _).
  destruct (nearby_objects (player (snd (interact (store g)))))
    as [|obj l] eqn:Hnear.
  - exists [CAddFeedbackMessage "Nichts in der Nähe!" "info"].
    cbn. rewrite <- app_assoc.
    repeat split; try reflexivity.
    intros n Hn. injection Hn as <-. reflexivity.
  - assert (Hfb : exists fb,
               calls (if fst (interact (store g))
                      then success_feedback obj g1
                      else failure_feedback obj g1)
               = (calls g1 ++ fb)%list
               /\ forallb is_feedback fb = true).
    { destruct (fst (interact (store g)));
        [apply success_feedback_appends | apply failure_feedback_appends]. }
    destruct Hfb as (fb & Hcalls & Hfb).
    exists fb. rewrite Hcalls. subst g1. cbn [calls].
    rewrite <- app_assoc.
    repeat split; try assumption; try discriminate.
    + cbn. rewrite feedback_has_no_interact by assumption. reflexivity.
    + intros n Hn.
      destruct (fst (interact (store g))).
      * rewrite (success_feedback_calls obj l n) in Hcalls by assumption.
        apply app_inv_head in Hcalls. congruence.
      * rewrite (failure_feedback_calls obj l n) in Hcalls by assumption.
        apply app_inv_head in Hcalls. congruence.
Qed.

(** *** Clicks in placement mode *)

(** C2: a failed placement click gets no feedback from the handler.  In
    Playing with BuildingMode set, when the UI's click handler reports
    failure the only call [handle_events] makes is that click handler: the
    "Gebäude kann hier nicht platziert werden" (cannot place building
    here) Error message of line 160 is not emitted. *)
Theorem failed_placement_click_is_silent g mouse_pos button :
  game_state g = "playing" ->
  building_mode (ui (store g)) = true ->
  fst (handle_mouse_click mouse_pos button (store g)) = false ->
  calls (handle_event mouse_pos (MOUSEBUTTONDOWN button) g) =
    (calls g ++ [CHandleMouseClick mouse_pos button])%list
  /\ store (handle_event mouse_pos (MOUSEBUTTONDOWN button) g) =
     with_cursor mouse_pos (snd (handle_mouse_click mouse_pos button (store g))).
Proof.
  intros Hmode Hbm _. unfold handle_event. cbn [dispatch calls store].
  rewrite handle_mousebuttondown_eq. unfold any_panel.
  rewrite Hmode, Hbm, orb_true_r. cbn. split; reflexivity.
Qed.

(** C3: a successful placement click gets no feedback from the handler.
    In Playing with BuildingMode set, when the click leaves BuildingMode
    cleared and no pending type, the only call [handle_events] makes is
    the UI's click handler: the "<type> platziert!" Success message of
    line 155 is not emitted and [selected_building_type] is not reset. *)
Theorem successful_placement_click_is_silent g mouse_pos button :
  game_state g = "playing" ->
  building_mode (ui (store g)) = true ->
  building_mode
    (ui (snd (handle_mouse_click mouse_pos button (store g)))) = false ->
  building_type_to_place
    (ui (snd (handle_mouse_click mouse_pos button (store g)))) = None ->
  calls (handle_event mouse_pos (MOUSEBUTTONDOWN button) g) =
    (calls g ++ [CHandleMouseClick mouse_pos button])%list
  /\ store (handle_event mouse_pos (MOUSEBUTTONDOWN button) g) =
     with_cursor mouse_pos (snd (handle_mouse_click mouse_pos button (store g))).
Proof.
  intros Hmode Hbm _ _. unfold handle_event. cbn [dispatch calls store].
  rewrite handle_mousebuttondown_eq. unfold any_panel.
  rewrite Hmode, Hbm, orb_true_r. cbn. split; reflexivity.
Qed.

(** *** The pause toggle and the mouse *)

(** C5: mouse capture follows the mode.  From the state [__init__]
    leaves (Playing, mouse grabbed and hidden), after every ESC key-down
    of any sequence of them the mouse is grabbed exactly when the mode is
    Playing and visible exactly when it is not, and the mode is Playing or
    Paused; so Paused has the cursor released and visible. *)
Theorem mouse_capture_follows_mode s0 g :
  toggled_from collaborators (init s0) g ->
  event_grab (store g) = (game_state g =? "playing")
  /\ mouse_visible (store g) = negb (game_state g =? "playing")
  /\ (game_state g = "playing" \/ game_state g = "paused").
Proof.
  induction 1 as [|g mouse_pos _ (Hgrab & Hvis & Hmode)].
  - cbn. auto.
  - unfold handle_event. cbn [dispatch].
    rewrite handle_keydown_escape. unfold key_escape.
    destruct Hmode as [-> | ->]; cbn; auto.
Qed.

Lemma handle_keydown_building_menu g :
  game_state g = "playing" -> handle_keydown K_b g = key_b g.
Proof.
  intros Hmode. unfold handle_keydown.
  change (K_b =? K_ESCAPE)%Z with false.
  change (K_b =? K_1)%Z with false.
  change (K_b =? K_2)%Z with false.
  change (K_b =? K_3)%Z with false.
  change (K_b =? K_SPACE)%Z with false.
  change (K_b =? K_i)%Z with false.
  change (K_b =? K_b)%Z with true.
  cbv iota zeta. rewrite Hmode. reflexivity.
Qed.

End Properties.

(** ** The nearest-building search *)

Section NearestBuilding.

Context {F : Type} {float_ops : PyFloat F} {float_errors : PyFloatErrors F}.
Context {Private : Type} {collaborators : Collaborators F Private}.

Implicit Types (g : Game F Private) (s : Store F Private).

Section Search.

Hypothesis laws : float_laws (F := F).

Variable p : Player F.






End Search.

Lemma handle_event_checked_building_menu mouse_pos g :
  game_state g = "playing" ->
  handle_event_checked mouse_pos (KEYDOWN K_b) g =
  if scan_raises (store g) then None
  else Some (handle_event mouse_pos (KEYDOWN K_b) g).
Proof.
  intros Hmode. unfold handle_event_checked, event_raises.
  rewrite Hmode. reflexivity.
Qed.


End NearestBuilding.


(** ** The loop run in the concrete world *)

Import Model.




(** Scenario 1: interact next to a market with cargo. *)
Lemma interact_at_market_sells :
  game_state at_market = "playing"
  /\ nearest_of
       (nearby_objects (player (snd (interact (store at_market)))))
     = Some (NearBuilding "Markt")
  /\ calls (handle_event (0, 0) (KEYDOWN K_e) at_market) =
     [CSetVisible false; CSetGrab true; CInteract;
      CAddFeedbackMessage "Ressourcen verkauft!" "success"].
Proof.
  split; [reflexivity | split; [reflexivity|]].
  exact (interact_feedback_is_table_row
           at_market (0, 0) (NearBuilding "Markt") eq_refl eq_refl).
Defined.

(** Scenario 2: interact with nothing around; and interact next to an oil
    field with a player whose [interact()] uses the field up: the handler
    looks at the list after the call and finds nothing. *)
Lemma interact_comes_before_lookup :
  game_state in_open_sea = "playing"
  /\ calls (handle_event (0, 0) (KEYDOWN K_e) in_open_sea) =
     [CSetVisible false; CSetGrab true; CInteract;
      CAddFeedbackMessage "Nichts in der Nähe!" "info"]
  /\ game_state at_oil_field = "playing"
  /\ nearby_objects (player (store at_oil_field)) <> []
  /\ calls (handle_event (collaborators := consuming_collaborators)
                         (0, 0) (KEYDOWN K_e) at_oil_field) =
     [CSetVisible false; CSetGrab true; CInteract;
      CAddFeedbackMessage "Nichts in der Nähe!" "info"].
Proof.
  split; [reflexivity|]. split.
  - destruct (interact_called_once_and_first in_open_sea (0, 0) eq_refl)
      as (feedback & Hcalls & _ & _ & _ & Hempty).
    destruct (Hempty eq_refl) as [-> _]. exact Hcalls.
  - split; [reflexivity|]. split; [discriminate|].
    destruct (interact_called_once_and_first
                (collaborators := consuming_collaborators)
                at_oil_field (0, 0) eq_refl)
      as (feedback & Hcalls & _ & _ & _ & Hempty).
    destruct (Hempty eq_refl) as [-> _]. exact Hcalls.
Defined.

(** Scenario 4: a click on the occupied tile while placing a refinery.
    The game stays in placement mode, and nothing is said. *)
Lemma click_on_occupied_tile :
  game_state placing_refinery = "playing"
  /\ building_mode (ui (store placing_refinery)) = true
  /\ fst (handle_mouse_click (10, 10) 1 (store placing_refinery)) = false
  /\ calls (handle_event (10, 10) (MOUSEBUTTONDOWN 1) placing_refinery) =
     [CHandleMouseClick (10, 10) 1]
  /\ building_mode
       (ui (store (handle_event (10, 10) (MOUSEBUTTONDOWN 1)
                                placing_refinery))) = true
  /\ feedback_queue
       (private (store (handle_event (10, 10) (MOUSEBUTTONDOWN 1)
                                     placing_refinery))) = [].
Proof.
  split; [reflexivity | split; [reflexivity | split; [reflexivity|]]].
  split; [| split; reflexivity].
  exact (proj1 (failed_placement_click_is_silent
                  placing_refinery (10, 10) 1 eq_refl eq_refl eq_refl)).
Defined.

(** A click on a free tile while placing a refinery.  The refinery is
    placed, placement mode ends, and nothing is said. *)
Lemma click_on_free_tile :
  game_state placing_refinery = "playing"
  /\ building_mode (ui (store placing_refinery)) = true
  /\ building_mode
       (ui (snd (handle_mouse_click (20, 20) 1 (store placing_refinery))))
     = false
  /\ building_type_to_place
       (ui (snd (handle_mouse_click (20, 20) 1 (store placing_refinery))))
     = None
  /\ calls (handle_event (20, 20) (MOUSEBUTTONDOWN 1) placing_refinery) =
     [CHandleMouseClick (20, 20) 1]
  /\ selected_building_type
       (ui (store (handle_event (20, 20) (MOUSEBUTTONDOWN 1)
                                placing_refinery))) = Some "Raffinerie"
  /\ feedback_queue
       (private (store (handle_event (20, 20) (MOUSEBUTTONDOWN 1)
                                     placing_refinery))) = [].
Proof.
  do 4 (split; [reflexivity|]).
  split; [| split; reflexivity].
  exact (proj1 (successful_placement_click_is_silent
                  placing_refinery (20, 20) 1
                  eq_refl eq_refl eq_refl eq_refl)).
Defined.



(** Scenario 5, once more: three presses of ESC leave the game paused with
    the cursor released and visible. *)
Lemma three_toggles :
  toggled_from model_collaborators (init open_sea) toggled_thrice
  /\ event_grab (store toggled_thrice)
     = (game_state toggled_thrice =? "playing")
  /\ mouse_visible (store toggled_thrice)
     = negb (game_state toggled_thrice =? "playing")
  /\ (game_state toggled_thrice = "playing"
      \/ game_state toggled_thrice = "paused").
Proof.
  assert (H : toggled_from model_collaborators (init open_sea)
                           toggled_thrice).
  { unfold toggled_thrice. do 3 apply toggled_press. apply toggled_start. }
  split; [exact H|].
  exact (mouse_capture_follows_mode open_sea toggled_thrice H).
Defined.

(** With the building menu open and the game paused, a click is not
    forwarded to the UI. *)
Lemma paused_click_is_not_forwarded :
  game_state paused_with_menu = "paused"
  /\ building_menu_open (ui (store paused_with_menu)) = true
  /\ calls (handle_event (5, 5) (MOUSEBUTTONDOWN 1) paused_with_menu) =
     calls paused_with_menu
  /\ ~ In (CHandleMouseClick (5, 5) 1)
          (calls (handle_event (5, 5) (MOUSEBUTTONDOWN 1) paused_with_menu)).
Proof.
  do 3 (split; [reflexivity|]).
  cbv. intros [H | [H | [H | [H | [H | []]]]]]; discriminate H.
Defined.

(** A tick of two seconds while paused: the message on screen keeps its
    three seconds. *)
Lemma paused_tick_keeps_message :
  game_state paused_with_message <> "playing"
  /\ update 2000 [] paused_with_message =
     mkGame "paused" true (Fin 2) (store paused_with_message)
            (calls paused_with_message ++ [CClockTick 60])
  /\ feedback_queue (private (store (update 2000 [] paused_with_message))) =
     [mkMessage "Nichts in der Nähe!" "info" 3].
Proof.
  assert (Hmode : game_state paused_with_message <> "playing")
    by (intros H; cbv in H; discriminate H).
  split; [exact Hmode|].
  rewrite (update_outside_playing_only_ticks
             paused_with_message 2000 [] Hmode).
  split; reflexivity.
Defined.

(** ** More properties of the loop, for any collaborators *)

Section LoopProperties.

Context {F : Type} {float_ops : PyFloat F}.
Context {Private : Type} {collaborators : Collaborators F Private}.
Context {renderer : Renderer F Private}.

Implicit Types (g : Game F Private) (s : Store F Private).

(** *** Event handling reads the mode and the store only

    A handler is local when its effect on a game is its effect on the
    game with a fresh trace, [running] and [dt] carried over unchanged. *)

Lemma success_feedback_local obj gs r d s cs :
  success_feedback obj (mkGame gs r d s cs) =
  mkGame (game_state (success_feedback obj (mkGame gs true (of_int 0) s [])))
         r d
         (store (success_feedback obj (mkGame gs true (of_int 0) s [])))
         (cs ++ calls (success_feedback obj (mkGame gs true (of_int 0) s []))).
Proof.
  unfold success_feedback.
  repeat case_if; cbn; rewrite ?app_nil_r; reflexivity.
Qed.

Lemma failure_feedback_local obj gs r d s cs :
  failure_feedback obj (mkGame gs r d s cs) =
  mkGame (game_state (failure_feedback obj (mkGame gs true (of_int 0) s [])))
         r d
         (store (failure_feedback obj (mkGame gs true (of_int 0) s [])))
         (cs ++ calls (failure_feedback obj (mkGame gs true (of_int 0) s []))).
Proof.
  unfold failure_feedback.
  repeat case_if; cbn; rewrite ?app_nil_r; reflexivity.
Qed.

Lemma key_e_local gs r d s cs :
  key_e (mkGame gs r d s cs) =
  mkGame (game_state (key_e (mkGame gs true (of_int 0) s [])))
         r d
         (store (key_e (mkGame gs true (of_int 0) s [])))
         (cs ++ calls (key_e (mkGame gs true (of_int 0) s []))).
Proof.
  unfold key_e. rewrite !call_ret_eq. cbv beta iota zeta.
  cbn [game_state running dt store calls app].
  destruct (nearby_objects _) as [|obj l].
  - unfold ui_add_feedback_message, call. cbn.
    rewrite <- app_assoc. reflexivity.
  - destruct (fst (interact _)).
    + rewrite (success_feedback_local obj gs true (of_int 0)
                                      (snd (interact s)) [CInteract]).
      rewrite success_feedback_local.
      cbn [game_state store calls]. rewrite <- app_assoc. reflexivity.
    + rewrite (failure_feedback_local obj gs true (of_int 0)
                                      (snd (interact s)) [CInteract]).
      rewrite failure_feedback_local.
      cbn [game_state store calls]. rewrite <- app_assoc. reflexivity.
Qed.

Lemma key_b_local gs r d s cs :
  key_b (mkGame gs r d s cs) =
  mkGame (game_state (key_b (mkGame gs true (of_int 0) s [])))
         r d
         (store (key_b (mkGame gs true (of_int 0) s [])))
         (cs ++ calls (key_b (mkGame gs true (of_int 0) s []))).
Proof.
  unfold key_b. cbn [store].
  destruct (find_nearest_building s); reflexivity.
Qed.

Lemma key_escape_local gs r d s cs :
  key_escape (mkGame gs r d s cs) =
  mkGame (game_state (key_escape (mkGame gs true (of_int 0) s [])))
         r d
         (store (key_escape (mkGame gs true (of_int 0) s [])))
         (cs ++ calls (key_escape (mkGame gs true (of_int 0) s []))).
Proof.
  unfold key_escape, event_set_grab, mouse_set_visible, set_game_state, call.
  cbn [game_state].
  destruct (gs =? "playing"); cbn; rewrite <- app_assoc; reflexivity.
Qed.

Lemma handle_keydown_local key gs r d s cs :
  handle_keydown key (mkGame gs r d s cs) =
  mkGame (game_state (handle_keydown key (mkGame gs true (of_int 0) s [])))
         r d
         (store (handle_keydown key (mkGame gs true (of_int 0) s [])))
         (cs ++ calls (handle_keydown key (mkGame gs true (of_int 0) s []))).
Proof.
  destruct (key =? K_ESCAPE)%Z eqn:Hk.
  - apply Z.eqb_eq in Hk. subst key.
    rewrite !handle_keydown_escape. apply key_escape_local.
  - unfold handle_keydown. rewrite Hk. cbn [game_state].
    repeat case_if;
      first [ apply key_b_local | apply key_e_local | reflexivity
            | cbn; rewrite app_nil_r; reflexivity ].
Qed.

Lemma handle_mousebuttondown_local mouse_pos button gs r d s cs :
  handle_mousebuttondown mouse_pos button (mkGame gs r d s cs) =
  mkGame (game_state (handle_mousebuttondown mouse_pos button
                        (mkGame gs true (of_int 0) s [])))
         r d
         (store (handle_mousebuttondown mouse_pos button
                   (mkGame gs true (of_int 0) s [])))
         (cs ++ calls (handle_mousebuttondown mouse_pos button
                         (mkGame gs true (of_int 0) s []))).
Proof.
  rewrite !handle_mousebuttondown_eq. cbn [game_state store].
  case_if; cbn; rewrite ?app_nil_r; reflexivity.
Qed.

(** Handling an event reads the mode and the store, writes [running] on
    QUIT only, and never touches [dt]. *)
Lemma handle_event_local mouse_pos e gs r d s cs :
  handle_event mouse_pos e (mkGame gs r d s cs) =
  mkGame (game_state (handle_event mouse_pos e
                                   (mkGame gs true (of_int 0) s [])))
         (if is_quit e then false else r) d
         (store (handle_event mouse_pos e (mkGame gs true (of_int 0) s [])))
         (cs ++ calls (handle_event mouse_pos e
                                    (mkGame gs true (of_int 0) s []))).
Proof.
  unfold handle_event.
  destruct e as [|key|button|rel|t]; cbn [dispatch is_quit].
  - cbn. rewrite app_nil_r. reflexivity.
  - rewrite handle_keydown_local. cbn [game_state running dt store calls].
    reflexivity.
  - rewrite handle_mousebuttondown_local.
    cbn [game_state running dt store calls]. reflexivity.
  - unfold camera_free. cbn [game_state store].
    case_if; cbn; rewrite ?app_nil_r; reflexivity.
  - cbn. rewrite app_nil_r. reflexivity.
Qed.

(** *** [running], [dt] and the rest of a batch *)

Lemma handle_event_running mouse_pos e g :
  running (handle_event mouse_pos e g) =
  if is_quit e then false else running g.
Proof. destruct g. rewrite handle_event_local. reflexivity. Qed.

Lemma handle_event_dt mouse_pos e g :
  dt (handle_event mouse_pos e g) = dt g.
Proof. destruct g. rewrite handle_event_local. reflexivity. Qed.

Lemma handle_event_same mouse_pos e g g' :
  same_but_running g g' ->
  same_but_running (handle_event mouse_pos e g) (handle_event mouse_pos e g').
Proof.
  destruct g as [gs r d s cs], g' as [gs' r' d' s' cs'].
  unfold same_but_running at 1. cbn [game_state dt store calls].
  intros (<- & <- & <- & <-).
  rewrite (handle_event_local mouse_pos e gs r),
          (handle_event_local mouse_pos e gs r').
  repeat split.
Qed.

Lemma handle_events_same mouse_pos evs : forall g g',
  same_but_running g g' ->
  same_but_running (handle_events mouse_pos evs g)
                   (handle_events mouse_pos evs g').
Proof.
  induction evs as [|e evs IH]; intros g g' Hsame; [assumption|].
  cbn [handle_events fold_left]. apply IH, handle_event_same, Hsame.
Qed.

Lemma handle_events_app mouse_pos evs1 evs2 g :
  handle_events mouse_pos (evs1 ++ evs2) g =
  handle_events mouse_pos evs2 (handle_events mouse_pos evs1 g).
Proof. unfold handle_events. apply fold_left_app. Qed.

Lemma handle_events_running mouse_pos evs : forall g,
  running (handle_events mouse_pos evs g) =
  running g && negb (existsb is_quit evs).
Proof.
  induction evs as [|e evs IH]; intros g.
  - cbn. symmetry; apply andb_true_r.
  - cbn [handle_events fold_left existsb].
    change (fold_left _ evs ?g0) with (handle_events mouse_pos evs g0).
    rewrite IH, handle_event_running.
    destruct (is_quit e); cbn; [symmetry; apply andb_false_r | reflexivity].
Qed.

Lemma handle_events_dt mouse_pos evs : forall g,
  dt (handle_events mouse_pos evs g) = dt g.
Proof.
  induction evs as [|e evs IH]; intros g; [reflexivity|].
  cbn [handle_events fold_left].
  change (fold_left _ evs ?g0) with (handle_events mouse_pos evs g0).
  rewrite IH. apply handle_event_dt.
Qed.

(** X1: [running] is cleared by QUIT and by nothing else.  After a batch
    of events [running] holds exactly when it held before and the batch
    has no QUIT event, whatever the other events and the collaborators
    do; and handling events never changes [dt]. *)
Theorem running_cleared_exactly_by_quit mouse_pos evs g :
  running (handle_events mouse_pos evs g) =
    running g && negb (existsb is_quit evs)
  /\ dt (handle_events mouse_pos evs g) = dt g.
Proof.
  split; [apply handle_events_running | apply handle_events_dt].
Qed.

(** X2: a QUIT does not cut the batch short.  The events behind a QUIT in
    the same batch are handled as if the QUIT were an event of a type the
    loop has no branch for: mode, [dt], store and calls end up the same,
    and only [running] differs, which is false. *)
Theorem quit_lets_the_batch_finish mouse_pos before after t g :
  same_but_running
    (handle_events mouse_pos (before ++ QUIT :: after) g)
    (handle_events mouse_pos (before ++ OTHER t :: after) g)
  /\ running (handle_events mouse_pos (before ++ QUIT :: after) g) = false.
Proof.
  split.
  - rewrite !handle_events_app.
    cbn [handle_events fold_left].
    change (fold_left _ after ?g0) with (handle_events mouse_pos after g0).
    apply handle_events_same.
    destruct (handle_events mouse_pos before g) as [gs r d s cs].
    repeat split.
  - rewrite handle_events_running, existsb_app. cbn.
    rewrite orb_true_r. apply andb_false_r.
Qed.

(** *** A game that is not in Playing *)

Lemma with_cursor_twice mouse_pos s :
  with_cursor mouse_pos (with_cursor mouse_pos s) = with_cursor mouse_pos s.
Proof. reflexivity. Qed.

Lemma handle_event_outside_playing mouse_pos e g :
  game_state g <> "playing" ->
  is_pause_toggle e = false ->
  handle_event mouse_pos e g =
  mkGame (game_state g) (if is_quit e then false else running g) (dt g)
         (with_cursor mouse_pos (store g)) (calls g).
Proof.
  intros Hmode He.
  assert (Hp : (game_state g =? "playing") = false)
    by (apply String.eqb_neq; assumption).
  unfold handle_event.
  destruct e as [|key|button|rel|t]; cbn [dispatch is_quit is_pause_toggle] in *.
  - reflexivity.
  - unfold handle_keydown. rewrite He, Hp. reflexivity.
  - rewrite handle_mousebuttondown_eq, Hp. reflexivity.
  - unfold camera_free. rewrite Hp. reflexivity.
  - reflexivity.
Qed.

(** While the mode is not Playing, a batch without an ESC key-down makes
    no call and leaves the mode and the store as they are, up to the
    cursor position (when it has an event at all) and [running] (when it
    has a QUIT). *)
Lemma handle_events_outside_playing mouse_pos evs g :
  game_state g <> "playing" ->
  forallb (fun e => negb (is_pause_toggle e)) evs = true ->
  handle_events mouse_pos evs g =
  mkGame (game_state g) (running g && negb (existsb is_quit evs)) (dt g)
         (match evs with
          | [] => store g
          | _ :: _ => with_cursor mouse_pos (store g)
          end)
         (calls g).
Proof.
  intros Hmode Hevs. destruct evs as [|e0 evs0].
  - destruct g. cbn. rewrite andb_true_r. reflexivity.
  - revert g Hmode. revert e0 Hevs.
    induction evs0 as [|e1 evs1 IH]; intros e0 Hevs g Hmode;
      cbn [forallb] in Hevs; apply andb_prop in Hevs as [He0 Hrest];
      apply negb_true_iff in He0;
      cbn [handle_events fold_left];
      rewrite (handle_event_outside_playing mouse_pos e0 g Hmode He0).
    + cbn. destruct (is_quit e0); cbn;
        rewrite ?andb_false_r, ?andb_true_r; reflexivity.
    + change (fold_left _ evs1 (handle_event mouse_pos e1 ?g0))
        with (handle_events mouse_pos (e1 :: evs1) g0).
      rewrite (IH e1 Hrest) by (cbn; assumption).
      cbn [game_state running dt store calls existsb].
      rewrite with_cursor_twice.
      destruct (is_quit e0); cbn; rewrite ?andb_false_r; reflexivity.
Qed.

(** *** The cursor position *)

Lemma handle_event_cursor mouse_pos e g :
  cursor_pos (ui (store (handle_event mouse_pos e g))) = mouse_pos.
Proof. reflexivity. Qed.

(** X4: the UI's cursor position is refreshed once per event.  After a
    batch with at least one event [ui.cursor_pos] is the mouse position,
    whatever the collaborators did to it meanwhile; a batch without events
    leaves the cursor position as it was. *)
Theorem cursor_follows_mouse_when_events_arrive mouse_pos evs g :
  cursor_pos (ui (store (handle_events mouse_pos evs g))) =
  match evs with
  | [] => cursor_pos (ui (store g))
  | _ :: _ => mouse_pos
  end.
Proof.
  destruct (rev evs) as [|e l] eqn:Hrev;
    apply (f_equal (@rev _)) in Hrev; rewrite rev_involutive in Hrev;
    cbn in Hrev; subst evs.
  - reflexivity.
  - rewrite handle_events_app.
    destruct (rev l ++ [e])%list eqn:Hl.
    + apply app_eq_nil in Hl as [_ Hl]. discriminate.
    + apply handle_event_cursor.
Qed.

(** *** Keys *)

(** X5: the slot keys.  In Playing, the key [K_1 + i] for [i] in 0..2
    calls [switch_ship(i)] and nothing else, whichever panels are open. *)
Theorem slot_key_switches_ship mouse_pos i g :
  game_state g = "playing" ->
  (0 <= i <= 2)%Z ->
  handle_event mouse_pos (KEYDOWN (K_1 + i)) g =
  mkGame "playing" (running g) (dt g)
         (with_cursor mouse_pos (switch_ship i (store g)))
         (calls g ++ [CSwitchShip i]).
Proof.
  intros Hmode Hi.
  assert (Hcases : i = 0%Z \/ i = 1%Z \/ i = 2%Z) by lia.
  destruct g as [gs r d s cs]. cbn in Hmode. subst gs.
  unfold handle_event. cbn [dispatch]. unfold handle_keydown.
  destruct Hcases as [-> | [-> | ->]]; reflexivity.
Qed.

(** X6: keys without a binding are dropped.  In every mode, a key-down of
    a key other than ESC, 1, 2, 3, SPACE, I, B and E makes no call and
    changes nothing but the cursor position. *)
Theorem unbound_key_is_dropped mouse_pos key g :
  ~ In key [K_ESCAPE; K_1; K_2; K_3; K_SPACE; K_i; K_b; K_e] ->
  handle_event mouse_pos (KEYDOWN key) g =
  mkGame (game_state g) (running g) (dt g)
         (with_cursor mouse_pos (store g)) (calls g).
Proof.
  intros Hkey. cbn [In] in Hkey.
  unfold handle_event. cbn [dispatch]. unfold handle_keydown.
  repeat match goal with
         | |- context [(key =? ?k)%Z] =>
             destruct (Z.eqb_spec key k); [exfalso; intuition congruence|]
         end.
  destruct (game_state g =? "playing"); reflexivity.
Qed.

(** X7: interacting with something that is neither a resource nor a
    building.  In Playing, when the first nearby object after
    [interact()] has a ["type"] other than "resource" and "building", the
    E key calls [interact] and emits no feedback at all, whatever the
    result of the call. *)
Theorem interact_with_unknown_kind_is_silent mouse_pos g obj l :
  game_state g = "playing" ->
  nearby_objects (player (snd (interact (store g)))) = obj :: l ->
  obj_type obj <> "resource" ->
  obj_type obj <> "building" ->
  handle_event mouse_pos (KEYDOWN K_e) g =
  mkGame "playing" (running g) (dt g)
         (with_cursor mouse_pos (snd (interact (store g))))
         (calls g ++ [CInteract]).
Proof.
  intros Hmode Hnear Hres Hbld.
  apply String.eqb_neq in Hres, Hbld.
  unfold handle_event. cbn [dispatch].
  rewrite handle_keydown_interact by assumption.
  unfold key_e. rewrite call_ret_eq. cbv beta iota zeta. cbn [store].
  rewrite Hnear. unfold success_feedback, failure_feedback.
  rewrite Hres, Hbld, Hmode.
  destruct (fst (interact (store g))); reflexivity.
Qed.

(** *** Where feedback comes from *)

Lemma feedback_helpers_append_at_most_one obj (success : bool) g :
  exists fb,
    calls (if success then success_feedback obj g else failure_feedback obj g)
    = (calls g ++ fb)%list
    /\ (List.length fb <= 1)%nat
    /\ forallb is_feedback fb = true.
Proof.
  destruct success; unfold success_feedback, failure_feedback;
    repeat case_if;
    first [ exists []; split; [symmetry; apply app_nil_r |];
            split; [cbn; lia | reflexivity]
          | eexists [_]; split; [reflexivity|];
            split; [cbn; lia | reflexivity] ].
Qed.

(** X9: feedback comes from the B and E keys in Playing only.  For every
    event and state, the calls the handler adds contain at most one
    feedback message, and none at all unless the mode is Playing and the
    event is the key-down of B or of E. *)
Theorem feedback_only_from_b_and_e mouse_pos e g :
  exists added,
    calls (handle_event mouse_pos e g) = (calls g ++ added)%list
    /\ (List.length (filter is_feedback added) <= 1)%nat
    /\ (filter is_feedback added <> [] ->
        game_state g = "playing"
        /\ (e = KEYDOWN K_b \/ e = KEYDOWN K_e)).
Proof.
  unfold handle_event. cbn [calls].
  destruct e as [|key|button|rel|t]; cbn [dispatch].
  - exists []. cbn. rewrite app_nil_r. repeat split; auto; contradiction.
  - destruct (Z.eqb_spec key K_ESCAPE) as [-> | Hesc].
    { rewrite handle_keydown_escape. unfold key_escape.
      destruct (game_state g =? "playing");
        eexists [_; _]; cbn; rewrite <- app_assoc;
        (split; [reflexivity|]); split; auto; contradiction. }
    unfold handle_keydown.
    destruct (key =? K_ESCAPE)%Z eqn:Hk;
      [apply Z.eqb_eq in Hk; contradiction|].
    destruct (game_state g =? "playing") eqn:Hmode;
      [apply String.eqb_eq in Hmode
      | exists []; cbn; rewrite app_nil_r; repeat split; auto; contradiction].
    destruct (key =? K_1)%Z;
      [eexists [_]; cbn; repeat split; auto; contradiction|].
    destruct (key =? K_2)%Z;
      [eexists [_]; cbn; repeat split; auto; contradiction|].
    destruct (key =? K_3)%Z;
      [eexists [_]; cbn; repeat split; auto; contradiction|].
    destruct (key =? K_SPACE)%Z;
      [eexists [_]; cbn; repeat split; auto; contradiction|].
    destruct (key =? K_i)%Z;
      [eexists [_]; cbn; repeat split; auto; contradiction|].
    destruct (Z.eqb_spec key K_b) as [-> | Hb].
    { unfold key_b. destruct (find_nearest_building _);
        eexists [_]; cbn; repeat split; auto; contradiction. }
    destruct (Z.eqb_spec key K_e) as [-> | He];
      [| exists []; cbn; rewrite app_nil_r; repeat split; auto; contradiction].
    unfold key_e. rewrite call_ret_eq. cbv beta iota zeta. cbn [store].
    set (g1 := mkGame _ _ _ _ _).
    destruct (nearby_objects _) as [|obj l].
    + eexists [_; _]. cbn. rewrite <- app_assoc.
      repeat split; auto.
    + destruct (feedback_helpers_append_at_most_one
                  obj (fst (interact (store g))) g1)
        as (fb & Hcalls & Hlen & Hfb).
      exists (CInteract :: fb). rewrite Hcalls. subst g1. cbn [calls].
      rewrite <- app_assoc. split; [reflexivity|].
      cbn [filter is_feedback]. split; [|auto].
      etransitivity; [apply filter_length_le | exact Hlen].
  - rewrite handle_mousebuttondown_eq.
    destruct ((game_state g =? "playing") && any_panel (ui (store g)));
      [eexists [_] | exists []]; cbn; rewrite ?app_nil_r;
      repeat split; auto; contradiction.
  - destruct (camera_free g); [eexists [_] | exists []];
      cbn; rewrite ?app_nil_r; repeat split; auto; contradiction.
  - exists []. cbn. rewrite app_nil_r. repeat split; auto; contradiction.
Qed.

(** *** Pausing and resuming *)

(** X10: pause and resume is a round trip.  Two ESC key-downs in a row
    from Playing bring the game back to Playing with the mouse hidden and
    grabbed; no collaborator is called, so world, player, panels and the
    collaborators' private state are what they were, and when the mouse
    was hidden and grabbed before, the store differs in the cursor
    position at most. *)
Theorem pause_resume_round_trip mouse_pos g :
  game_state g = "playing" ->
  handle_events mouse_pos [KEYDOWN K_ESCAPE; KEYDOWN K_ESCAPE] g =
  mkGame "playing" (running g) (dt g)
         (with_cursor mouse_pos
            (mkStore (world (store g)) (player (store g)) (ui (store g))
                     false true (private (store g))))
         (calls g ++ [CSetVisible true; CSetGrab false;
                      CSetVisible false; CSetGrab true])
  /\ (mouse_visible (store g) = false -> event_grab (store g) = true ->
      store (handle_events mouse_pos [KEYDOWN K_ESCAPE; KEYDOWN K_ESCAPE] g)
      = with_cursor mouse_pos (store g)).
Proof.
  intros Hmode. cbn [handle_events fold_left]. unfold handle_event.
  cbn [dispatch]. rewrite !handle_keydown_escape. unfold key_escape.
  rewrite Hmode. cbn. rewrite <- !app_assoc. split; [reflexivity|].
  intros Hvis Hgrab. destruct g as [gs r d [w p u mv eg pr] cs].
  cbn in *. subst. reflexivity.
Qed.

(** *** The main loop *)

Lemma update_own_fields ms keys g :
  game_state (update ms keys g) = game_state g
  /\ running (update ms keys g) = running g.
Proof.
  unfold update. cbn [game_state set_dt call].
  destruct (game_state g =? "playing"); split; reflexivity.
Qed.

Lemma render_own_fields g :
  game_state (fst (render g)) = game_state g
  /\ running (fst (render g)) = running g
  /\ dt (fst (render g)) = dt g
  /\ calls (fst (render g)) = calls g.
Proof.
  unfold render.
  destruct ((game_state g =? "playing") || (game_state g =? "paused"));
    [|destruct (game_state g =? "menu")]; repeat split.
Qed.



Lemma turns_app frames1 : forall frames2 g scr,
  turns (frames1 ++ frames2) g scr =
  turns frames2 (fst (turns frames1 g scr)) (snd (turns frames1 g scr)).
Proof.
  induction frames1 as [|f frames1 IH]; intros frames2 g scr; [reflexivity|].
  cbn [turns app]. destruct (turn f g) as [g' drawn]. apply IH.
Qed.

(** X3: a paused turn only ticks the clock and draws.  In Paused, a turn
    of the main loop whose events include no ESC key-down makes no call on
    any collaborator apart from drawing: the only call recorded is
    [clock.tick(60)], [dt] is set from it, [running] is cleared when the
    batch has a QUIT, the cursor position is refreshed when the batch has
    an event, and the world and the UI are drawn for "paused". *)
Theorem paused_turn_only_ticks_and_draws f g :
  game_state g = "paused" ->
  forallb (fun e => negb (is_pause_toggle e)) (frame_events f) = true ->
  turn f g =
  (mkGame "paused" (running g && negb (has_quit f))
          (fdiv (of_int (frame_ms f)) (of_int 1000))
          (ui_render "paused"
             (world_render
                (match frame_events f with
                 | [] => store g
                 | _ :: _ => with_cursor (frame_mouse_pos f) (store g)
                 end)))
          (calls g ++ [CClockTick 60]),
   [DFill; DWorldRender; DUIRender "paused"; DFlip]).
Proof.
  intros Hmode Hevs. unfold turn.
  rewrite handle_events_outside_playing
    by (try rewrite Hmode; try discriminate; assumption).
  rewrite Hmode. reflexivity.
Qed.


Lemma handle_event_mode mouse_pos e g :
  game_state (handle_event mouse_pos e g) =
  if is_pause_toggle e
  then (if game_state g =? "playing" then "paused" else "playing")
  else game_state g.
Proof.
  unfold handle_event. cbn [game_state].
  destruct e as [|key|button|rel|t]; cbn [dispatch is_pause_toggle].
  - reflexivity.
  - destruct (key =? K_ESCAPE)%Z eqn:Hk.
    + apply Z.eqb_eq in Hk. subst key.
      rewrite handle_keydown_escape. apply key_escape_state.
    + apply handle_keydown_other; assumption.
  - rewrite handle_mousebuttondown_eq. case_if; reflexivity.
  - case_if; reflexivity.
  - reflexivity.
Qed.

Lemma handle_events_mode mouse_pos evs : forall g,
  game_state g = "playing" \/ game_state g = "paused" ->
  game_state (handle_events mouse_pos evs g) = "playing"
  \/ game_state (handle_events mouse_pos evs g) = "paused".
Proof.
  induction evs as [|e evs IH]; intros g Hg; [assumption|].
  cbn [handle_events fold_left]. apply IH.
  rewrite handle_event_mode.
  destruct (is_pause_toggle e); [|assumption].
  destruct Hg as [-> | ->]; cbn; auto.
Qed.

Lemma turn_mode f g :
  game_state g = "playing" \/ game_state g = "paused" ->
  (game_state (fst (turn f g)) = "playing"
   \/ game_state (fst (turn f g)) = "paused")
  /\ snd (turn f g) =
     [DFill; DWorldRender; DUIRender (game_state (fst (turn f g))); DFlip].
Proof.
  intros Hg. unfold turn.
  set (g1 := update _ _ _).
  assert (Hg1 : game_state g1 = "playing" \/ game_state g1 = "paused").
  { subst g1. rewrite (proj1 (update_own_fields _ _ _)).
    apply handle_events_mode. assumption. }
  unfold render. destruct Hg1 as [-> | ->]; cbn; auto.
Qed.

(** X12: the mode is Playing or Paused for good, and every turn draws the
    world and the UI.  From the state [__init__] leaves, whatever input
    arrives and whatever the collaborators do, the mode at the end of a
    run is "playing" or "paused", and each turn played has drawn the
    background, the world, the UI for the mode of that turn (Playing or
    Paused), and flipped the display: the "menu" branch of [render] is
    never taken. *)
Theorem run_mode_is_playing_or_paused s0 frames :
  (game_state (final_game (run frames (init s0) [])) = "playing"
   \/ game_state (final_game (run frames (init s0) [])) = "paused")
  /\ Forall (fun drawn =>
               drawn = [DFill; DWorldRender; DUIRender "playing"; DFlip]
               \/ drawn = [DFill; DWorldRender; DUIRender "paused"; DFlip])
            (final_screen (run frames (init s0) [])).
Proof.
  assert (Hgen : forall frames g scr,
             game_state g = "playing" \/ game_state g = "paused" ->
             Forall (fun drawn =>
                       drawn = [DFill; DWorldRender; DUIRender "playing";
                                DFlip]
                       \/ drawn = [DFill; DWorldRender; DUIRender "paused";
                                   DFlip]) scr ->
             (game_state (final_game (run frames g scr)) = "playing"
              \/ game_state (final_game (run frames g scr)) = "paused")
             /\ Forall (fun drawn =>
                          drawn = [DFill; DWorldRender; DUIRender "playing";
                                   DFlip]
                          \/ drawn = [DFill; DWorldRender; DUIRender "paused";
                                      DFlip])
                       (final_screen (run frames g scr))).
  { clear frames. induction frames as [|f frames IH]; intros g scr Hg Hscr.
    - cbn [run]. destruct (running g); cbn; auto.
    - cbn [run]. destruct (running g); [|cbn; auto].
      destruct (turn_mode f g Hg) as [Hg' Hdrawn].
      destruct (turn f g) as [g' drawn]. cbn [fst snd] in *.
      apply IH; [assumption|].
      apply Forall_app. split; [assumption|].
      constructor; [|constructor].
      subst drawn. destruct Hg' as [-> | ->]; auto. }
  apply Hgen; [left; reflexivity | constructor].
Qed.

(** *** Mouse capture over whole runs *)

Lemma call_mouse c (f : Store F Private -> Store F Private) g :
  keeps_mouse f ->
  mouse_state (store (call c f g)) = mouse_state (store g).
Proof.
  intros Hf. unfold mouse_state. cbn [call store].
  destruct (Hf (store g)) as [-> ->]. reflexivity.
Qed.

Section QuietCollaborators.

Hypothesis quiet : mouse_left_alone.

Lemma feedback_helpers_mouse obj (success : bool) g :
  mouse_state
    (store (if success then success_feedback obj g
            else failure_feedback obj g))
  = mouse_state (store g).
Proof.
  destruct success; unfold success_feedback, failure_feedback;
    repeat case_if;
    first [ reflexivity
          | apply call_mouse, (quiet_add_feedback_message quiet) ].
Qed.

Lemma key_e_mouse g :
  mouse_state (store (key_e g)) = mouse_state (store g).
Proof.
  unfold key_e. rewrite call_ret_eq. cbv beta iota zeta. cbn [store].
  set (g1 := mkGame _ _ _ _ _).
  assert (H1 : mouse_state (store g1) = mouse_state (store g)).
  { subst g1. cbn [store]. unfold mouse_state.
    destruct (quiet_interact quiet (store g)) as [-> ->]. reflexivity. }
  rewrite <- H1.
  destruct (nearby_objects _) as [|obj l].
  - apply call_mouse, (quiet_add_feedback_message quiet).
  - apply (feedback_helpers_mouse obj (fst (interact (store g))) g1).
Qed.

Lemma key_b_mouse g :
  mouse_state (store (key_b g)) = mouse_state (store g).
Proof.
  unfold key_b. destruct (find_nearest_building _).
  - apply call_mouse, (quiet_toggle_building_interaction quiet).
  - apply call_mouse, (quiet_add_feedback_message quiet).
Qed.

Lemma handle_event_mouse mouse_pos e g :
  is_pause_toggle e = false ->
  mouse_state (store (handle_event mouse_pos e g)) = mouse_state (store g).
Proof.
  intros He. unfold handle_event. cbn [store].
  change (mouse_state (set_ui ?u ?s)) with (mouse_state s).
  destruct e as [|key|button|rel|t]; cbn [dispatch is_pause_toggle] in *.
  - reflexivity.
  - unfold handle_keydown. rewrite He.
    repeat case_if;
      first [ reflexivity
            | apply key_b_mouse
            | apply key_e_mouse
            | apply call_mouse;
              first [ apply (quiet_switch_ship quiet)
                    | apply (quiet_toggle_building_menu quiet)
                    | apply (quiet_toggle_ship_inventory quiet) ] ].
  - rewrite handle_mousebuttondown_eq. case_if; [|reflexivity].
    cbn [store]. unfold mouse_state.
    destruct (quiet_handle_mouse_click quiet mouse_pos button (store g))
      as [-> ->].
    reflexivity.
  - case_if; [|reflexivity].
    apply call_mouse, (quiet_handle_mouse_movement quiet).
  - reflexivity.
Qed.

Lemma handle_event_capture mouse_pos e g :
  mouse_state (store g) =
    (negb (game_state g =? "playing"), game_state g =? "playing") ->
  game_state g = "playing" \/ game_state g = "paused" ->
  mouse_state (store (handle_event mouse_pos e g)) =
    (negb (game_state (handle_event mouse_pos e g) =? "playing"),
     game_state (handle_event mouse_pos e g) =? "playing").
Proof.
  intros Hcap Hmode. destruct (is_pause_toggle e) eqn:He.
  - destruct e as [|key|button|rel|t]; try discriminate.
    cbn in He. apply Z.eqb_eq in He. subst key.
    unfold handle_event. cbn [dispatch].
    rewrite handle_keydown_escape. unfold key_escape.
    destruct Hmode as [-> | ->]; reflexivity.
  - rewrite handle_event_mouse, handle_event_mode, He by assumption.
    assumption.
Qed.

Lemma handle_events_capture mouse_pos evs : forall g,
  mouse_state (store g) =
    (negb (game_state g =? "playing"), game_state g =? "playing") ->
  game_state g = "playing" \/ game_state g = "paused" ->
  mouse_state (store (handle_events mouse_pos evs g)) =
    (negb (game_state (handle_events mouse_pos evs g) =? "playing"),
     game_state (handle_events mouse_pos evs g) =? "playing").
Proof.
  induction evs as [|e evs IH]; intros g Hcap Hmode; [assumption|].
  cbn [handle_events fold_left]. apply IH.
  - apply handle_event_capture; assumption.
  - apply (handle_events_mode mouse_pos [e] g Hmode).
Qed.

Lemma update_mouse ms keys g :
  mouse_state (store (update ms keys g)) = mouse_state (store g).
Proof.
  unfold update. cbn [game_state set_dt].
  destruct (game_state (call _ _ g) =? "playing"); [|reflexivity].
  rewrite call_mouse by apply (quiet_update_feedback_messages quiet).
  rewrite call_mouse by apply (quiet_resource_manager_update quiet).
  rewrite call_mouse by apply (quiet_world_update quiet).
  rewrite call_mouse by apply (quiet_move quiet).
  reflexivity.
Qed.

Lemma render_mouse g :
  mouse_state (store (fst (render g))) = mouse_state (store g).
Proof.
  unfold render, mouse_state.
  destruct ((game_state g =? "playing") || (game_state g =? "paused"));
    [|destruct (game_state g =? "menu")]; cbn [fst store].
  - destruct (quiet_ui_render quiet (game_state g) (world_render (store g)))
      as [-> ->].
    destruct (quiet_world_render quiet (store g)) as [-> ->]. reflexivity.
  - destruct (quiet_ui_render_menu quiet (store g)) as [-> ->]. reflexivity.
  - reflexivity.
Qed.

Lemma turn_capture f g :
  mouse_state (store g) =
    (negb (game_state g =? "playing"), game_state g =? "playing") ->
  game_state g = "playing" \/ game_state g = "paused" ->
  mouse_state (store (fst (turn f g))) =
    (negb (game_state (fst (turn f g)) =? "playing"),
     game_state (fst (turn f g)) =? "playing").
Proof.
  intros Hcap Hmode. unfold turn.
  rewrite render_mouse, (proj1 (render_own_fields _)).
  rewrite update_mouse, (proj1 (update_own_fields _ _ _)).
  apply handle_events_capture; assumption.
Qed.

End QuietCollaborators.

(** X13: mouse capture follows the mode through whole runs.  If no method
    of the collaborators shows, hides, grabs or releases the mouse, then
    from the state [__init__] leaves, after any number of turns of the
    main loop with any events, the mouse is grabbed exactly when the mode
    is Playing and visible exactly when it is not. *)
Theorem run_keeps_mouse_capture_in_step s0 frames :
  mouse_left_alone ->
  event_grab (store (final_game (run frames (init s0) []))) =
    (game_state (final_game (run frames (init s0) [])) =? "playing")
  /\ mouse_visible (store (final_game (run frames (init s0) []))) =
    negb (game_state (final_game (run frames (init s0) [])) =? "playing").
Proof.
  intros quiet.
  assert (Hgen : forall frames g scr,
             mouse_state (store g) =
               (negb (game_state g =? "playing"), game_state g =? "playing") ->
             game_state g = "playing" \/ game_state g = "paused" ->
             mouse_state (store (final_game (run frames g scr))) =
               (negb (game_state (final_game (run frames g scr)) =? "playing"),
                game_state (final_game (run frames g scr)) =? "playing")).
  { clear frames. induction frames as [|f frames IH]; intros g scr Hcap Hmode.
    - cbn [run]. destruct (running g); assumption.
    - cbn [run]. destruct (running g); [|assumption].
      pose proof (turn_capture quiet f g Hcap Hmode) as Hcap'.
      pose proof (proj1 (turn_mode f g Hmode)) as Hmode'.
      destruct (turn f g) as [g' drawn]. cbn [fst] in *.
      apply IH; assumption. }
  specialize (Hgen frames (init s0) [] eq_refl (or_introl eq_refl)).
  unfold mouse_state in Hgen. injection Hgen as Hvis Hgrab.
  split; assumption.
Qed.

End LoopProperties.

(** ** The B key without any law of [<] *)

Section BuildingMenuSafety.

Context {F : Type} {float_ops : PyFloat F} {float_errors : PyFloatErrors F}.
Context {Private : Type} {collaborators : Collaborators F Private}.

Lemma scan_buildings_in_range (p : Player F) bs : forall nearest m b,
  fst (scan_buildings p bs nearest m) = Some b ->
  nearest = Some b
  \/ (In b bs /\ flt (distance p b) (of_int 50) = true).
Proof.
  induction bs as [|b0 bs IH]; intros nearest m b Hscan.
  - left. exact Hscan.
  - cbn [scan_buildings] in Hscan.
    destruct (flt (distance p b0) m && flt (distance p b0) (of_int 50))
      eqn:Hsel.
    + apply andb_prop in Hsel as [_ H50].
      destruct (IH _ _ _ Hscan) as [Heq | [Hin Hb]].
      * injection Heq as <-. right. split; [left; reflexivity | assumption].
      * right. split; [right; assumption | assumption].
    + destruct (IH _ _ _ Hscan) as [Heq | [Hin Hb]].
      * left. assumption.
      * right. split; [right; assumption | assumption].
Qed.

(** X8: the B key is safe whatever [<] does.  In Playing, with no
    assumption on the float comparison (NaN distances included), a press
    of B either ends in OverflowError, which it does exactly when the
    square of a coordinate difference overflows for some building of the
    world, or makes exactly one call: the Warning
    "Kein Gebäude in der Nähe", or [toggle_building_interaction] on a
    building that is in the world's list and whose computed distance
    compares below 50. *)
Theorem building_menu_key_never_out_of_range mouse_pos
        (g : Game F Private) :
  game_state g = "playing" ->
  match handle_event_checked mouse_pos (KEYDOWN K_b) g with
  | None => scan_raises (store g) = true
  | Some g' =>
      scan_raises (store g) = false
      /\ exists c,
          calls g' = (calls g ++ [c])%list
          /\ (c = CAddFeedbackMessage "Kein Gebäude in der Nähe" "warning"
              \/ exists b,
                  c = CToggleBuildingInteraction b
                  /\ In b (buildings (world (store g)))
                  /\ flt (distance (player (store g)) b) (of_int 50) = true)
  end.
Proof.
  intros Hmode. rewrite handle_event_checked_building_menu by assumption.
  destruct (scan_raises (store g)); [reflexivity|].
  split; [reflexivity|].
  unfold handle_event. cbn [dispatch calls].
  rewrite handle_keydown_building_menu by assumption.
  unfold key_b, find_nearest_building.
  destruct (fst (scan_buildings _ _ None f_inf)) as [b|] eqn:Hscan.
  - exists (CToggleBuildingInteraction b). split; [reflexivity|].
    right. exists b. split; [reflexivity|].
    destruct (scan_buildings_in_range _ _ _ _ _ Hscan) as [H | H];
      [discriminate | exact H].
  - eexists. split; [reflexivity|]. left. reflexivity.
Qed.

End BuildingMenuSafety.

(** ** More runs in the concrete world *)

Lemma model_mouse_left_alone :
  mouse_left_alone (collaborators := model_collaborators)
                   (renderer := model_renderer).
Proof.
  constructor; try (intros; intros s; split; reflexivity).
  intros pos b s. cbn. unfold model_handle_mouse_click.
  destruct (building_mode (ui s)); [|split; reflexivity].
  destruct (existsb _ _); split; reflexivity.
Qed.

(** A paused turn in which E is pressed, the mouse is clicked and the
    window is closed: the message on screen keeps its three seconds and
    nothing is forwarded. *)
Lemma paused_turn_with_keys_and_clicks :
  game_state paused_with_message = "paused"
  /\ forallb (fun e => negb (is_pause_toggle e))
             [KEYDOWN K_e; MOUSEBUTTONDOWN 1; QUIT] = true
  /\ calls (fst (turn (mkFrame (7, 7) [KEYDOWN K_e; MOUSEBUTTONDOWN 1; QUIT]
                               2000 [])
                      paused_with_message)) =
     (calls paused_with_message ++ [CClockTick 60])%list
  /\ running (fst (turn (mkFrame (7, 7)
                                 [KEYDOWN K_e; MOUSEBUTTONDOWN 1; QUIT]
                                 2000 [])
                        paused_with_message)) = false
  /\ feedback_queue
       (private (store (fst (turn (mkFrame (7, 7)
                                      [KEYDOWN K_e; MOUSEBUTTONDOWN 1; QUIT]
                                      2000 [])
                             paused_with_message)))) =
     [mkMessage "Nichts in der Nähe!" "info" 3].
Proof.
  split; [reflexivity | split; [reflexivity|]].
  rewrite (paused_turn_only_ticks_and_draws
             (mkFrame (7, 7) [KEYDOWN K_e; MOUSEBUTTONDOWN 1; QUIT] 2000 [])
             paused_with_message eq_refl eq_refl).
  repeat split.
Defined.

(** Key 3 with every panel open switches to the third ship. *)
Lemma third_ship_with_panels_open :
  game_state all_panels_open = "playing"
  /\ (0 <= 2 <= 2)%Z
  /\ calls (handle_event (0, 0) (KEYDOWN K_3) all_panels_open) =
     [CSwitchShip 2]
  /\ current_ship
       (private (store (handle_event (0, 0) (KEYDOWN K_3) all_panels_open)))
     = 2%Z.
Proof.
  split; [reflexivity | split; [lia|]].
  change K_3 with (K_1 + 2)%Z.
  rewrite (slot_key_switches_ship (0, 0) 2 all_panels_open eq_refl
                                  ltac:(lia)).
  split; reflexivity.
Defined.

(** The X key (120) next to a market does nothing. *)
Lemma x_key_is_dropped :
  ~ In 120%Z [K_ESCAPE; K_1; K_2; K_3; K_SPACE; K_i; K_b; K_e]
  /\ calls (handle_event (9, 9) (KEYDOWN 120) at_market) = calls at_market
  /\ cursor_pos (ui (store (handle_event (9, 9) (KEYDOWN 120) at_market)))
     = (9, 9)%Z.
Proof.
  assert (H : ~ In 120%Z [K_ESCAPE; K_1; K_2; K_3; K_SPACE; K_i; K_b; K_e])
    by (cbv; intuition discriminate).
  split; [exact H|].
  rewrite (unbound_key_is_dropped (9, 9) 120 at_market H).
  split; reflexivity.
Defined.

(** Interacting next to a wreck: [interact] is called and nothing is
    said. *)
Lemma interact_at_wreck :
  game_state at_wreck = "playing"
  /\ obj_type (mkNearby (F := Num) "wreck" (ObjResource (mkResource "Holz")))
     <> "resource"
  /\ obj_type (mkNearby (F := Num) "wreck" (ObjResource (mkResource "Holz")))
     <> "building"
  /\ calls (handle_event (0, 0) (KEYDOWN K_e) at_wreck) =
     [CSetVisible false; CSetGrab true; CInteract].
Proof.
  assert (Hres : obj_type (mkNearby (F := Num) "wreck"
                             (ObjResource (mkResource "Holz")))
                 <> "resource") by (cbn; discriminate).
  assert (Hbld : obj_type (mkNearby (F := Num) "wreck"
                             (ObjResource (mkResource "Holz")))
                 <> "building") by (cbn; discriminate).
  split; [reflexivity | split; [exact Hres | split; [exact Hbld|]]].
  rewrite (interact_with_unknown_kind_is_silent
             (collaborators := model_collaborators) (0, 0) at_wreck
             (mkNearby "wreck" (ObjResource (mkResource "Holz"))) []
             eq_refl eq_refl Hres Hbld).
  reflexivity.
Defined.

(** The B key in town makes one call; at the world's end, where a
    platform lies 1e200 away, it ends in OverflowError although the market
    is next door. *)
Lemma building_menu_in_town_is_in_range :
  game_state in_town = "playing"
  /\ (exists c,
        calls (handle_event (0, 0) (KEYDOWN K_b) in_town) =
          (calls in_town ++ [c])%list
        /\ (c = CAddFeedbackMessage "Kein Gebäude in der Nähe" "warning"
            \/ exists b,
                c = CToggleBuildingInteraction b
                /\ In b (buildings (world (store in_town)))
                /\ flt (distance (player (store in_town)) b) (of_int 50)
                   = true))
  /\ game_state at_worlds_end = "playing"
  /\ handle_event_checked (0, 0) (KEYDOWN K_b) at_worlds_end = None
  /\ scan_raises (store at_worlds_end) = true.
Proof.
  split; [reflexivity|]. split.
  - exact (proj2 (building_menu_key_never_out_of_range
                    (float_errors := num_errors) (0, 0) in_town eq_refl)).
  - split; [reflexivity | split; [reflexivity|]].
    exact (building_menu_key_never_out_of_range
             (float_errors := num_errors) (0, 0) at_worlds_end eq_refl).
Defined.

(** Pause and resume in the open sea. *)
Lemma pause_resume_in_open_sea :
  game_state in_open_sea = "playing"
  /\ mouse_visible (store in_open_sea) = false
  /\ event_grab (store in_open_sea) = true
  /\ store (handle_events (6, 6) [KEYDOWN K_ESCAPE; KEYDOWN K_ESCAPE]
                          in_open_sea)
     = with_cursor (6, 6) (store in_open_sea).
Proof.
  do 3 (split; [reflexivity|]).
  exact (proj2 (pause_resume_round_trip (6, 6) in_open_sea eq_refl)
               eq_refl eq_refl).
Defined.


(** In the recorded session the mouse ends grabbed and hidden, the mode
    being Playing again. *)
Lemma session_keeps_mouse_capture :
  mouse_left_alone (collaborators := model_collaborators)
                   (renderer := model_renderer)
  /\ game_state (final_game (run session (init open_sea) [])) = "playing"
  /\ event_grab (store (final_game (run session (init open_sea) []))) = true
  /\ mouse_visible (store (final_game (run session (init open_sea) [])))
     = false.
Proof.
  split; [exact model_mouse_left_alone | split; [reflexivity|]].
  destruct (run_keeps_mouse_capture_in_step
              open_sea session model_mouse_left_alone) as [Hgrab Hvis].
  split; [exact Hgrab | exact Hvis].
Defined.

(** ** The laws of [<] at the floats of the machine *)

Lemma SFltb_key f1 f2 :
  SpecFloat.SFltb f1 f2 = true <->
  exists k1 k2,
    Double.sf_key f1 = Some k1 /\ Double.sf_key f2 = Some k2
    /\ Double.key_lt k1 k2.
Proof.
  unfold SpecFloat.SFltb, SpecFloat.SFcompare.
  destruct f1 as [s1|s1| |s1 m1 e1], f2 as [s2|s2| |s2 m2 e2];
    try destruct s1; try destruct s2; cbn [Double.sf_key];
    try (destruct (Z.compare_spec e1 e2);
         try (rewrite Pos.compare_cont_spec; cbn [Pos.switch_Eq];
              destruct (Pos.compare_spec m1 m2); cbn [CompOpp]));
    (split;
     [ intros Htrue; try discriminate Htrue; do 2 eexists;
       (split; [reflexivity | split; [reflexivity | cbn; lia]])
     | intros (k1 & k2 & H1 & H2 & Hlt); try discriminate;
       injection H1 as <-; injection H2 as <-; cbn in Hlt;
       first [reflexivity | exfalso; lia] ]).
Qed.

Lemma double_ltb_key (a b : PrimFloat.float) :
  PrimFloat.ltb a b = true <->
  exists k1 k2,
    Double.sf_key (FloatOps.Prim2SF a) = Some k1
    /\ Double.sf_key (FloatOps.Prim2SF b) = Some k2
    /\ Double.key_lt k1 k2.
Proof. rewrite FloatAxioms.ltb_spec. apply SFltb_key. Qed.

(** The laws hold of IEEE 754 doubles, NaN, infinities and signed zeros
    included. *)
Lemma double_float_laws :
  float_laws (F := PrimFloat.float) (float_ops := Double.double_float).
Proof.
  constructor; cbn [flt of_int f_inf Double.double_float].
  - intros a. destruct (PrimFloat.ltb a a) eqn:E; [|reflexivity].
    apply double_ltb_key in E as (k1 & k2 & H1 & H2 & Hlt).
    rewrite H1 in H2. injection H2 as <-.
    destruct k1 as [[a1 b1] c1]. cbn in Hlt. lia.
  - intros a b c Hab Hbc. apply double_ltb_key.
    apply double_ltb_key in Hab as (ka & kb & Ha & Hb & Hab).
    apply double_ltb_key in Hbc as (kb' & kc & Hb' & Hc & Hbc).
    rewrite Hb in Hb'. injection Hb' as <-.
    exists ka, kc. split; [assumption | split; [assumption|]].
    destruct ka as [[a1 a2] a3], kb as [[b1 b2] b3], kc as [[c1 c2] c3].
    cbn in *. lia.
  - intros a b c Hb Hac.
    assert (Hkey : exists kb, Double.sf_key (FloatOps.Prim2SF b) = Some kb).
    { unfold is_number in Hb. cbn [flt of_int f_inf Double.double_float] in Hb.
      apply orb_prop in Hb as [Hb | Hb];
        apply double_ltb_key in Hb as (k1 & k2 & H1 & H2 & _); eauto. }
    destruct Hkey as (kb & Hkb).
    apply double_ltb_key in Hac as (ka & kc & Ha & Hc & Hac).
    assert (Hcases : Double.key_lt ka kb \/ Double.key_lt kb kc).
    { destruct ka as [[a1 a2] a3], kb as [[b1 b2] b3], kc as [[c1 c2] c3].
      cbn in *. lia. }
    destruct Hcases as [H | H]; [left | right];
      apply double_ltb_key; eauto 6.
  - reflexivity.
Qed.

(** At doubles, [is_number] says "not NaN". *)
Lemma double_is_number (a : PrimFloat.float) :
  is_number (float_ops := Double.double_float) a
  = negb (PrimFloat.is_nan a).
Proof.
  unfold is_number, PrimFloat.is_nan.
  cbn [flt of_int f_inf Double.double_float Double.double_of_int].
  rewrite !FloatAxioms.ltb_spec, FloatAxioms.eqb_spec, negb_involutive.
  change (FloatOps.Prim2SF PrimFloat.infinity)
    with (SpecFloat.S754_infinity false).
  change (FloatOps.Prim2SF PrimFloat.zero) with (SpecFloat.S754_zero false).
  unfold SpecFloat.SFltb, SpecFloat.SFeqb, SpecFloat.SFcompare.
  destruct (FloatOps.Prim2SF a) as [s|s| |s m e]; try destruct s;
    rewrite ?Z.compare_refl, ?Pos.compare_cont_refl; reflexivity.
Qed.
